(** * jtplot: matplotlib styling of jupyter-themes

    A shallow embedding of [jupyterthemes/jtplot.py] and the properties of
    its configuration-merging pipeline.

    - Python [str] is [string] (code points below 256); the string methods
      the module uses ([strip], [split], slicing, [in]) are written out.
    - Python numbers are [num]: unbounded [int] or binary64 [float], with
      the mixed-mode multiplication of the language.
    - Python [dict] is an insertion-ordered association list; the module
      iterates over [items()], so the order is part of the model.
    - Exceptions are the [Raise] branch of [result].
    - A text file is the decoded stream [open] delivers; its lines are
      split at the line terminator, which each line keeps.
    - The host library (matplotlib) is a record of the global objects the
      module reads and writes; its colour converter and the order in which
      the interpreter enumerates a set are section variables. [rcParams]
      is the mapping as the module writes it: what the host makes of a
      value on assignment (it may store a converted form or refuse the
      value) is outside the model. *)

From Stdlib Require Import ZArith String Ascii List Bool Lia Floats.
From stdpp Require Import base list strings.

Set Warnings "-inexact-float".
Local Open Scope string_scope.

(* ================================================================= *)
(** ** Exceptions *)

Inductive exn : Type :=
| KeyError        (* missing dict key *)
| IndexError      (* list index out of range *)
| ValueError      (* list.index of an absent element, invalid colour,
                     bytes that do not decode, NUL in a file name *)
| OverflowError   (* int too large to convert to float *)
| OSError.        (* open() found no file, or one the system refuses *)

Inductive result (A : Type) : Type :=
| Ok (a : A)
| Raise (e : exn).
Arguments Ok {A} a.
Arguments Raise {A} e.

(** [result] with the monad interface of stdpp: [x ← r; k] runs [k] on the
    value of [r] and lets an exception through. *)
#[global] Instance result_ret : MRet result := fun A a => Ok a.
#[global] Instance result_bind : MBind result := fun A B k r =>
  match r with
  | Ok a => k a
  | Raise e => Raise e
  end.

(* ================================================================= *)
(** ** Strings *)

Module Str.

(** The line terminator, as a character and as a string. *)
Definition nl : ascii := "010"%char.
Definition eol : string := String nl EmptyString.

(** [str.isspace] on one character, for code points below 256. *)
Definition is_space (c : ascii) : bool :=
  let n := nat_of_ascii c in
  (((9 <=? n) && (n <=? 13)) || ((28 <=? n) && (n <=? 32))
   || (n =? 133) || (n =? 160))%nat.

Fixpoint lstrip (s : string) : string :=
  match s with
  | EmptyString => EmptyString
  | String c s' => if is_space c then lstrip s' else s
  end.

Fixpoint rstrip (s : string) : string :=
  match s with
  | EmptyString => EmptyString
  | String c s' =>
      match rstrip s' with
      | EmptyString => if is_space c then EmptyString else String c EmptyString
      | r => String c r
      end
  end.

(** [s.strip()] *)
Definition strip (s : string) : string := rstrip (lstrip s).

(** [s.startswith(p)] *)
Fixpoint startswith (p s : string) : bool :=
  match p, s with
  | EmptyString, _ => true
  | String _ _, EmptyString => false
  | String a p', String b s' => Ascii.eqb a b && startswith p' s'
  end.

(** [p in s]: some position of [s], with room left for [p], starts [p]. *)
Fixpoint contains (p s : string) : bool :=
  if (String.length s <? String.length p)%nat then false
  else startswith p s
       || match s with
          | EmptyString => false
          | String _ s' => contains p s'
          end.

(** [s.split(sep)] for a one-character separator: never empty. *)
Fixpoint split (sep : ascii) (s : string) : list string :=
  match s with
  | EmptyString => [EmptyString]
  | String c s' =>
      if Ascii.eqb c sep then EmptyString :: split sep s'
      else match split sep s' with
           | w :: ws => String c w :: ws
           | [] => [String c EmptyString]
           end
  end.

Fixpoint drop (n : nat) (s : string) : string :=
  match n, s with
  | O, _ => s
  | S _, EmptyString => EmptyString
  | S n', String _ s' => drop n' s'
  end.

(** [s[-n:]] for [n > 0]: the last [n] characters, all of a shorter [s]. *)
Definition suffix (n : nat) (s : string) : string :=
  drop (String.length s - n)%nat s.

(** The lines of a text stream, each with its terminator, as
    [readlines()] and iteration over the file object give them. *)
Fixpoint readlines (s : string) : list string :=
  match s with
  | EmptyString => []
  | String c s' =>
      if Ascii.eqb c nl then String c EmptyString :: readlines s'
      else match readlines s' with
           | [] => [String c EmptyString]
           | l :: ls => String c l :: ls
           end
  end.

(** [l.index(x)]: the first position holding [x]. *)
Fixpoint index (x : string) (l : list string) : result nat :=
  match l with
  | [] => Raise ValueError
  | y :: l' => if String.eqb y x then Ok O
               else i ← index x l'; Ok (S i)
  end.

End Str.

(* ================================================================= *)
(** ** Numbers *)

Inductive num : Type :=
| Int (z : Z)
| Float (f : float).

(** Conversion of an [int] operand to [float]: correctly rounded, and an
    [OverflowError] beyond the binary64 range. *)
Definition int_to_float (z : Z) : result float :=
  match binary_normalize prec emax z 0 false with
  | S754_infinity _ => Raise OverflowError
  | sf => Ok (SF2Prim sf)
  end.

(** [a * b] on numbers. *)
Definition py_mul (a b : num) : result num :=
  match a, b with
  | Int x, Int y => Ok (Int (x * y))
  | Int x, Float g => f ← int_to_float x; Ok (Float (f * g))
  | Float f, Int y => g ← int_to_float y; Ok (Float (f * g))
  | Float f, Float g => Ok (Float (f * g))
  end.

(** The exact value of a finite float as an integer, when it is one. *)
Definition float_to_Z (f : float) : option Z :=
  match Prim2SF f with
  | S754_zero _ => Some 0%Z
  | S754_finite s m e =>
      let v := if s then Z.neg m else Z.pos m in
      if (0 <=? e)%Z then Some (v * 2 ^ e)%Z
      else if (Z.pos m mod 2 ^ (- e) =? 0)%Z then Some (v / 2 ^ (- e))%Z
      else None
  | _ => None
  end.

(** [a == b] on numbers: exact, also between [int] and [float]. *)
Definition py_eq (a b : num) : bool :=
  match a, b with
  | Int x, Int y => (x =? y)%Z
  | Float f, Float g => PrimFloat.eqb f g
  | Int x, Float g | Float g, Int x =>
      match float_to_Z g with
      | Some y => (x =? y)%Z
      | None => false
      end
  end.

(* ================================================================= *)
(** ** Dictionaries *)

Module Dict.

Definition t (V : Type) : Type := list (string * V).

(** [d.get(k)] *)
Fixpoint get {V : Type} (k : string) (d : t V) : option V :=
  match d with
  | [] => None
  | (k', v) :: d' => if String.eqb k' k then Some v else get k d'
  end.

(** [d[k]] *)
Definition getitem {V : Type} (k : string) (d : t V) : result V :=
  match get k d with
  | Some v => Ok v
  | None => Raise KeyError
  end.

(** [d[k] = v]: in place when [k] is present, appended otherwise. *)
Fixpoint set {V : Type} (k : string) (v : V) (d : t V) : t V :=
  match d with
  | [] => [(k, v)]
  | (k', v') :: d' =>
      if String.eqb k' k then (k', v) :: d' else (k', v') :: set k v d'
  end.

(** [d.update(e)] *)
Definition update {V : Type} (d e : t V) : t V :=
  fold_left (fun acc kv => set (fst kv) (snd kv) acc) e d.

(** The keys in iteration order. *)
Definition keys {V : Type} (d : t V) : list string := map fst d.

(** [{k: v for k, v in items}] *)
Definition of_items {V : Type} (items : list (string * V)) : t V :=
  update [] items.

End Dict.

(* ================================================================= *)
(** ** Values, files and the host library *)

(** What an entry of the configuration mapping can hold. *)
Inductive pyval : Type :=
| VBool (b : bool)
| VNum (n : num)
| VStr (s : string)
| VTuple (x y : num)
| VList (l : list string)
| VCycler (colors : list string).

(** What opening a path and reading it does: there is nothing there;
    [open] or the read raises [e] ([OSError] for a directory or a file the
    system refuses, [ValueError] for bytes that do not decode or a name
    with a NUL character); or there is a text file with the decoded stream
    [open] delivers. *)
Inductive file : Type :=
| Absent
| Unreadable (e : exn)
| Text (content : string).

Record files : Type := {
  theme_name_file : file;            (* <config-dir>/custom/current_theme.txt *)
  styles_dir : string -> file        (* <package>/styles/<file name> *)
}.

(** [os.path.exists] *)
Definition path_exists (f : file) : bool :=
  match f with
  | Absent => false
  | _ => true
  end.

(** [open(path)] followed by reading the whole stream; a missing file is
    [FileNotFoundError], an [OSError]. *)
Definition open (f : file) : result string :=
  match f with
  | Text content => Ok content
  | Unreadable e => Raise e
  | Absent => Raise OSError
  end.

Definition rgb : Type := float * float * float.

(** An argument of the host's colour converter. *)
Inductive color : Type :=
| ColorStr (s : string)
| ColorRGB (r g b : float).

(** The global objects of matplotlib the module writes. From matplotlib
    2.0 on, [colorConverter.colors] is a mapping that empties
    [colorConverter.cache] each time one of its entries is assigned;
    before, the two are independent dicts. [clears_cache] says which of
    the two hosts this is. *)
Record mpl : Type := {
  rcParams : Dict.t pyval;
  rcParamsDefault : Dict.t pyval;
  colors : Dict.t rgb;               (* colorConverter.colors *)
  cache : Dict.t rgb;                (* colorConverter.cache *)
  clears_cache : bool                (* matplotlib 2.0 and later *)
}.

Definition with_rcParams (rc : Dict.t pyval) (m : mpl) : mpl :=
  {| rcParams := rc; rcParamsDefault := rcParamsDefault m;
     colors := colors m; cache := cache m;
     clears_cache := clears_cache m |}.

(** [colors[code] = rgb], which empties the cache on the later host, then
    [cache[code] = rgb]. *)
Definition with_code (code : string) (c : rgb) (m : mpl) : mpl :=
  {| rcParams := rcParams m; rcParamsDefault := rcParamsDefault m;
     colors := Dict.set code c (colors m);
     cache := Dict.set code c (if clears_cache m then [] else cache m);
     clears_cache := clears_cache m |}.

(** Iterating over a [str] gives its characters as strings. *)
Fixpoint chars (s : string) : list string :=
  match s with
  | EmptyString => []
  | String c s' => String c EmptyString :: chars s'
  end.

(** A left fold whose step can raise. *)
Fixpoint foldM {A S : Type} (f : S -> A -> result S) (l : list A) (s : S)
  : result S :=
  match l with
  | [] => Ok s
  | x :: l' => s' ← f s x; foldM f l' s'
  end.

(* ================================================================= *)
(** ** Module constants *)

Definition base_style : Dict.t pyval :=
  [ ("axes.axisbelow", VBool true);
    ("figure.autolayout", VBool true);
    ("grid.linestyle", VStr "-");
    ("lines.solid_capstyle", VStr "round");
    ("legend.frameon", VBool false);
    ("legend.numpoints", VNum (Int 1));
    ("legend.scatterpoints", VNum (Int 1));
    ("font.family", VStr "sans-serif");
    ("font.sans-serif",
       VList ["Helvetica"; "Arial"; "Bitstream Vera Sans"; "sans-serif"]) ].

Definition base_context : Dict.t num :=
  [ ("axes.linewidth", Float 1.4);
    ("grid.linewidth", Float 1.4);
    ("lines.linewidth", Float 1.5);
    ("patch.linewidth", Float 0.2);
    ("lines.markersize", Int 7);
    ("lines.markeredgewidth", Int 0);
    ("xtick.major.width", Int 1);
    ("ytick.major.width", Int 1);
    ("xtick.minor.width", Float 0.5);
    ("ytick.minor.width", Float 0.5);
    ("xtick.major.pad", Int 7);
    ("ytick.major.pad", Int 7);
    ("xtick.major.size", Int 0);
    ("ytick.major.size", Int 0);
    ("xtick.minor.size", Int 0);
    ("ytick.minor.size", Int 0) ].

Definition base_font : Dict.t num :=
  [ ("font.size", Int 11);
    ("axes.labelsize", Int 12);
    ("axes.titlesize", Int 12);
    ("xtick.labelsize", Float 10.5);
    ("ytick.labelsize", Float 10.5);
    ("legend.fontsize", Float 10.5) ].

(** [dict(paper=.8, notebook=1, talk=1.3, poster=1.6)] *)
Definition scaling_table : Dict.t num :=
  [ ("paper", Float 0.8); ("notebook", Int 1);
    ("talk", Float 1.3); ("poster", Float 1.6) ].

(* ================================================================= *)
(** ** infer_theme (lines 62 to 72) *)

Definition infer_theme (fs : files) : result string :=
  if path_exists (theme_name_file fs) then
    f ← open (theme_name_file fs);
    match Str.readlines f !! 0%nat with
    | Some theme => Ok theme
    | None => Raise IndexError
    end
  else Ok "default".

(* ================================================================= *)
(** ** set_context (lines 162 to 180) *)

(** [{k: v * factor for k, v in d.items()}] *)
Definition scale_items (d : Dict.t num) (factor : num) : result (Dict.t pyval) :=
  items ← mapM (fun kv => w ← py_mul (snd kv) factor; Ok (fst kv, VNum w)) d;
  Ok (Dict.of_items items).

Definition set_context (context : string) (fscale : num)
  : result (Dict.t pyval) :=
  scaling ← Dict.getitem context scaling_table;
  context_dict ← scale_items base_context scaling;
  figX ← py_mul (Float 5.5) scaling;
  figY ← py_mul (Float 4.5) scaling;
  let context_dict :=
    Dict.set "figure.figsize" (VTuple figX figY) context_dict in
  font_dict ← scale_items base_font fscale;
  Ok (Dict.update context_dict font_dict).

(* ================================================================= *)
(** ** get_theme_style (lines 194 to 238) *)

Definition get_color_list : list string :=
  [ "#3572C6"; "#83a83b"; "#c44e52"; "#8172b2"; "#ff914d"; "#77BEDB";
    "#222222"; "#4168B7"; "#27ae60"; "#e74c3c"; "#8E44AD"; "#ff711a";
    "#3498db"; "#6C7A89" ].

Definition get_default_jtstyle : Dict.t string * list string :=
  ( [ ("axisFace", "white");
      ("figureFace", "white");
      ("textColor", ".15");
      ("edgeColor", ".8");
      ("gridColor", ".8") ],
    get_color_list ).

Definition syntaxVars : list string :=
  [ "@cm-atom"; "@cm-number"; "@cm-property"; "@cm-attribute";
    "@cm-keyword"; "@cm-string"; "@cm-meta" ].

(** [line.split(':')[-1].split(';')[0][-7:]]; [split] gives at least one
    piece, so neither index can raise. *)
Definition get_hex_code (line : string) : string :=
  Str.suffix 7
    (default EmptyString (head (Str.split ";"
       (default EmptyString (last (Str.split ":" line)))))).

(** The first inner loop on one line: every key of the map found in the
    stripped line takes the line's hex code. *)
Definition scan_style (line : string) (styleMap : Dict.t string)
  : Dict.t string :=
  fold_left
    (fun sm k =>
       if Str.contains k (Str.strip line)
       then Dict.set k (get_hex_code line) sm
       else sm)
    (Dict.keys styleMap) styleMap.

(** One step of the second inner loop: the list iterator is at position
    [i] of the list it is mutating. *)
Definition scan_syntax_at (line : string) (vars : list string) (i : nat)
  : result (list string) :=
  match vars !! i with
  | None => Ok vars
  | Some c =>
      if Str.contains c (Str.strip line)
      then j ← Str.index c vars; Ok (<[j := get_hex_code line]> vars)
      else Ok vars
  end.

(** [for c in syntaxVars]: the assignments keep the length of the list,
    so the iterator visits the positions [0 .. len - 1]. *)
Definition scan_syntax (line : string) (vars : list string)
  : result (list string) :=
  foldM (scan_syntax_at line) (seq 0 (length vars)) vars.

(** The body of [for line in f]: the first loop, then the second. *)
Definition scan_line (st : Dict.t string * list string) (line : string)
  : result (Dict.t string * list string) :=
  let styleMap := scan_style line (fst st) in
  vars ← scan_syntax line (snd st);
  Ok (styleMap, vars).

Section Interpreter.

(** [list(set(l))]: the order in which the interpreter enumerates the
    set of the strings of [l]. *)
Variable list_of_set : list string -> list string.

Definition get_theme_style (fs : files) (theme : string)
  : result (Dict.t string * list string) :=
  let '(styleMap, clist) := get_default_jtstyle in
  if String.eqb theme "default" then Ok (styleMap, clist)
  else
    f ← open (styles_dir fs (theme +:+ ".less"));
    st ← foldM scan_line (Str.readlines f) (styleMap, syntaxVars);
    let vars := list_of_set (snd st) in
    Ok (fst st, (clist ++ vars)%list).

(* =============================================================== *)
(** ** set_style (lines 99 to 159) *)

(** Lines 111 to 148 of [set_style]: the mapping handed to
    [mpl.rcParams.update] and the colour list. *)
Definition set_style_rcdict (fs : files) (rcdict : Dict.t pyval)
    (theme : string) (grid ticks spines : bool)
  : result (Dict.t pyval * list string) :=
  st ← get_theme_style fs theme;
  let styleMap := fst st in
  let clist := snd st in
  figureFace ← Dict.getitem "figureFace" styleMap;
  axisFace ← Dict.getitem "axisFace" styleMap;
  textColor ← Dict.getitem "textColor" styleMap;
  edgeColor ← Dict.getitem "edgeColor" styleMap;
  gridColor ← Dict.getitem "gridColor" styleMap;
  let edgeColor := if negb spines then gridColor else edgeColor in
  let style_dict :=
    [ ("figure.edgecolor", VStr figureFace);
      ("figure.facecolor", VStr figureFace);
      ("axes.facecolor", VStr axisFace);
      ("axes.edgecolor", VStr edgeColor);
      ("axes.labelcolor", VStr textColor);
      ("axes.grid", VBool grid);
      ("grid.color", VStr gridColor);
      ("text.color", VStr textColor);
      ("xtick.color", VStr textColor);
      ("ytick.color", VStr textColor);
      ("patch.edgecolor", VStr axisFace);
      ("patch.facecolor", VStr gridColor);
      ("savefig.facecolor", VStr figureFace);
      ("savefig.edgecolor", VStr figureFace) ] in
  let rcdict :=
    if ticks
    then Dict.update rcdict
           [ ("xtick.major.size", VNum (Int 6));
             ("ytick.major.size", VNum (Int 6));
             ("xtick.minor.size", VNum (Int 3));
             ("ytick.minor.size", VNum (Int 3)) ]
    else rcdict in
  let rcdict := Dict.update rcdict style_dict in
  Ok (rcdict, clist).

(** [mpl.colors.colorConverter.to_rgb] *)
Variable to_rgb : color -> result rgb.

(** [for code, color in pairs: rgb = to_rgb(color); colors[code] = rgb;
    cache[code] = rgb], stopping at the first exception. *)
Fixpoint set_codes (pairs : list (string * color)) (m : mpl)
  : result unit * mpl :=
  match pairs with
  | [] => (Ok tt, m)
  | (code, c) :: pairs' =>
      match to_rgb c with
      | Ok v => set_codes pairs' (with_code code v m)
      | Raise e => (Raise e, m)
      end
  end.

Definition set_style (fs : files) (rcdict : Dict.t pyval) (theme : string)
    (grid ticks spines : bool) (m : mpl) : result unit * mpl :=
  match set_style_rcdict fs rcdict theme grid ticks spines with
  | Raise e => (Raise e, m)
  | Ok (rcdict, clist) =>
      let m := with_rcParams (Dict.update (rcParams m) rcdict) m in
      let m :=
        with_rcParams
          (Dict.set "axes.prop_cycle" (VCycler clist) (rcParams m)) m in
      set_codes (zip (chars "bgrmyck") (ColorStr <$> take 7 clist)) m
  end.

(* =============================================================== *)
(** ** style (lines 75 to 95) *)

(** The mapping [style] hands to the host: [set_context], the theme
    named or inferred, then lines 111 to 148 of [set_style]. *)
Definition style_rcdict (fs : files) (theme : option string)
    (context : string) (grid ticks spines : bool) (fscale : num)
  : result (Dict.t pyval) :=
  rcdict ← set_context context fscale;
  theme ← match theme with
          | None => infer_theme fs
          | Some theme => Ok theme
          end;
  st ← set_style_rcdict fs rcdict theme grid ticks spines;
  Ok (fst st).

Definition style (fs : files) (theme : option string) (context : string)
    (grid ticks spines : bool) (fscale : num) (m : mpl)
  : result unit * mpl :=
  match set_context context fscale with
  | Raise e => (Raise e, m)
  | Ok rcdict =>
      match match theme with
            | None => infer_theme fs
            | Some theme => Ok theme
            end with
      | Raise e => (Raise e, m)
      | Ok theme => set_style fs rcdict theme grid ticks spines m
      end
  end.

(* =============================================================== *)
(** ** figsize (lines 183 to 191) and reset (lines 241 to 252) *)

Definition figsize (x y aspect : num) (m : mpl) : result unit * mpl :=
  match py_mul x aspect with
  | Raise e => (Raise e, m)
  | Ok w =>
      (Ok tt,
       with_rcParams
         (Dict.update (rcParams m) [("figure.figsize", VTuple w y)]) m)
  end.

Definition reset_colors : list color :=
  [ ColorRGB 0 0 1; ColorRGB 0 0.5 0; ColorRGB 1 0 0;
    ColorRGB 0.75 0.75 0; ColorRGB 0.75 0.75 0; ColorRGB 0 0.75 0.75;
    ColorRGB 0 0 0 ].

Definition reset (m : mpl) : result unit * mpl :=
  match set_codes (zip (chars "bgrmyck") reset_colors) m with
  | (Raise e, m) => (Raise e, m)
  | (Ok _, m) =>
      let m :=
        with_rcParams (Dict.update (rcParams m) (rcParamsDefault m)) m in
      let m :=
        with_rcParams
          (Dict.set "figure.facecolor" (VStr "white") (rcParams m)) m in
      (Ok tt,
       with_rcParams
         (Dict.set "axes.facecolor" (VStr "white") (rcParams m)) m)
  end.

End Interpreter.

(* ================================================================= *)
(** * Vocabulary of the statements *)

Definition contexts : list string := ["paper"; "notebook"; "talk"; "poster"].

(** The constants the specification gives for the four contexts. *)
Definition spec_scale : Dict.t num :=
  [ ("paper", Float 0.8); ("notebook", Float 1);
    ("talk", Float 1.3); ("poster", Float 1.6) ].

(** An operand that multiplication by a float accepts. *)
Definition convertible (n : num) : Prop :=
  match n with
  | Int z => exists f, int_to_float z = Ok f
  | Float _ => True
  end.

(** [kw] is the entry [kv] multiplied by [factor]. *)
Definition scaled (factor : num) (kv : string * num) (kw : string * pyval)
  : Prop :=
  fst kw = fst kv /\ exists w, py_mul (snd kv) factor = Ok w /\ snd kw = VNum w.

(** The four tick-size entries of the configuration mapping. *)
Definition tick_size_keys : list string :=
  ["xtick.major.size"; "ytick.major.size";
   "xtick.minor.size"; "ytick.minor.size"].

(** The keys [set_style] writes from the theme. *)
Definition style_keys : list string :=
  [ "figure.edgecolor"; "figure.facecolor"; "axes.facecolor";
    "axes.edgecolor"; "axes.labelcolor"; "axes.grid"; "grid.color";
    "text.color"; "xtick.color"; "ytick.color"; "patch.edgecolor";
    "patch.facecolor"; "savefig.facecolor"; "savefig.edgecolor" ].

(** The override [set_style] applies when [ticks] is set. *)
Definition tick_dict : Dict.t pyval :=
  [ ("xtick.major.size", VNum (Int 6));
    ("ytick.major.size", VNum (Int 6));
    ("xtick.minor.size", VNum (Int 3));
    ("ytick.minor.size", VNum (Int 3)) ].

(** A colour component between 0 and 1. *)
Definition in_unit (x : float) : bool :=
  PrimFloat.leb 0 x && PrimFloat.leb x 1.

(** The host's converter returns a valid RGB triple as it is. *)
Definition rgb_passthrough (to_rgb : color -> result rgb) : Prop :=
  forall r g b : float,
    in_unit r = true -> in_unit g = true -> in_unit b = true ->
    to_rgb (ColorRGB r g b) = Ok (r, g, b).

Definition magenta : rgb := (1%float, 0%float, 1%float).

(** The keys of the colour map and the twelve markers of a theme file. *)
Definition slot_keys : list string :=
  ["axisFace"; "figureFace"; "textColor"; "edgeColor"; "gridColor"].

Definition markers : list string := (slot_keys ++ syntaxVars)%list.

Definition is_hex_digit (c : ascii) : bool :=
  let n := nat_of_ascii c in
  (((48 <=? n) && (n <=? 57)) || ((65 <=? n) && (n <=? 70))
   || ((97 <=? n) && (n <=? 102)))%nat.

(** A valid [#RRGGBB] value. *)
Definition hex_color (s : string) : bool :=
  match s with
  | String "#" r =>
      (String.length r =? 6)%nat
      && forallb is_hex_digit (list_ascii_of_string r)
  | _ => false
  end.

(** The line of a theme file that gives [marker] the value [value]. *)
Definition theme_line (marker value : string) : string :=
  marker +:+ ": " +:+ value +:+ ";" +:+ Str.eol.

(** [c] occurs in [s]. *)
Fixpoint has_char (c : ascii) (s : string) : bool :=
  match s with
  | EmptyString => false
  | String x s' => Ascii.eqb c x || has_char c s'
  end.

(** What the interpreter guarantees of [list(set(l))]: the elements of
    [l], each once, in an order of its own. *)
Definition set_listing (list_of_set : list string -> list string) : Prop :=
  forall l, NoDup (list_of_set l) /\ forall x, x ∈ list_of_set l <-> x ∈ l.

(** [x] is found on the line [l] by the test of the scan,
    [x in l.strip()]; [x] is found on one of [lines]. *)
Definition on_line (x l : string) : bool := Str.contains x (Str.strip l).

Definition on_lines (x : string) (lines : list string) : bool :=
  existsb (on_line x) lines.

(** Each of the twelve markers is on one of [lines] together with its
    value. *)
Definition markers_with_values (values lines : list string) : Prop :=
  Forall (fun mv => existsb (fun l => on_line (fst mv) l && on_line (snd mv) l)
                      lines = true)
    (zip markers values).

(** [l] declares [v]: the text of [l] after its last colon and before the
    semicolon that follows ends in [v]. *)
Definition declares (l v : string) : Prop :=
  exists a u w,
    l = a +:+ ":" +:+ u +:+ v +:+ ";" +:+ w /\
    has_char ":" (u +:+ v +:+ ";" +:+ w) = false /\
    has_char ";" (u +:+ v) = false.

(** [l] is a line of a theme file that gives the twelve markers the twelve
    [values]: a marker found on [l] has its value declared by [l], and so
    has each of the seven syntax values found on [l]. *)
Definition theme_file_line (values : list string) (l : string) : Prop :=
  (forall i m v,
     markers !! i = Some m -> values !! i = Some v ->
     on_line m l = true -> declares l v) /\
  (forall v, v ∈ drop 5 values -> on_line v l = true -> declares l v).

(** The state of the scan after the lines [past], for a file that gives
    the twelve markers the twelve [values]: a slot or a syntax variable
    holds its value once a line with its marker has gone by, and what it
    started with before. *)
Definition theme_inv (values past : list string)
    (st : Dict.t string * list string) : Prop :=
  Dict.keys (fst st) = slot_keys /\
  (forall i k d v,
     fst get_default_jtstyle !! i = Some (k, d) -> values !! i = Some v ->
     Dict.get k (fst st) = Some (if on_lines k past then v else d)) /\
  length (snd st) = 7%nat /\
  (forall j m v,
     syntaxVars !! j = Some m -> values !! (5 + j)%nat = Some v ->
     snd st !! j = Some (if on_lines m past then v else m)).

(** A theme file for the examples: a comment, then the twelve marker
    lines from the last marker to the first. *)
Definition example_values : list string :=
  [ "#282c34"; "#21252b"; "#abb2bf"; "#3e4451"; "#4b5263";
    "#d19a66"; "#e5c07b"; "#61afef"; "#98c379"; "#c678dd";
    "#56b6c2"; "#be5046" ].

Definition example_lines : list string :=
  ("// colours of the theme" +:+ Str.eol)
  :: rev (zip_with theme_line markers example_values).

(** A theme file with the line of one syntax marker only. *)
Definition sparse_lines : list string :=
  [ theme_line "axisFace" "#282c34"; theme_line "@cm-number" "#d19a66" ].

Definition example_files : files :=
  {| theme_name_file := Absent;
     styles_dir := fun name =>
       if String.eqb name "example.less"
       then Text (String.concat EmptyString example_lines)
       else if String.eqb name "sparse.less"
       then Text (String.concat EmptyString sparse_lines)
       else Absent |}.

(** Theme files for the examples of the round trip. [loose.less] has the
    twelve markers on lines of several shapes, among lines of other text.
    [comment.less] has the twelve marker lines and then a comment that
    quotes the value of [@cm-atom]; [important.less] has them with a word
    between the value of [@cm-meta] and the semicolon. *)
Definition loose_lines : list string :=
  [ "// colours of the theme" +:+ Str.eol;
    "@axisFace: #282c34;" +:+ Str.eol;
    "@figureFace:#21252b;" +:+ Str.eol;
    "  textColor:   #abb2bf; // text" +:+ Str.eol;
    Str.eol;
    "@edgeColor: #3e4451;" +:+ Str.eol;
    "@gridColor: #4b5263;  " +:+ Str.eol;
    "@cm-meta: #be5046;" +:+ Str.eol;
    "@cm-string: #56b6c2;" +:+ Str.eol;
    "  @cm-keyword : #c678dd;" +:+ Str.eol;
    "@cm-attribute: #98c379;" +:+ Str.eol;
    "@cm-property: #61afef;" +:+ Str.eol;
    "@cm-number: #e5c07b;" +:+ Str.eol;
    "@cm-atom: #d19a66;" ].

Definition comment_lines : list string :=
  (zip_with theme_line markers example_values
   ++ [ "/* atoms use #d19a66 here */" +:+ Str.eol ])%list.

Definition important_lines : list string :=
  (zip_with theme_line (take 11 markers) (take 11 example_values)
   ++ [ "@cm-meta: #be5046 !important;" +:+ Str.eol ])%list.

Definition round_trip_files : files :=
  {| theme_name_file := Absent;
     styles_dir := fun name =>
       if String.eqb name "loose.less"
       then Text (String.concat EmptyString loose_lines)
       else if String.eqb name "comment.less"
       then Text (String.concat EmptyString comment_lines)
       else if String.eqb name "important.less"
       then Text (String.concat EmptyString important_lines)
       else Absent |}.

(** The dictionary [style_dict] of [set_style] (lines 123 to 137), as a
    function of the five colours it is built from and of [grid]. *)
Definition theme_style_dict
    (figureFace axisFace textColor edgeColor gridColor : string)
    (grid : bool) : Dict.t pyval :=
  [ ("figure.edgecolor", VStr figureFace);
    ("figure.facecolor", VStr figureFace);
    ("axes.facecolor", VStr axisFace);
    ("axes.edgecolor", VStr edgeColor);
    ("axes.labelcolor", VStr textColor);
    ("axes.grid", VBool grid);
    ("grid.color", VStr gridColor);
    ("text.color", VStr textColor);
    ("xtick.color", VStr textColor);
    ("ytick.color", VStr textColor);
    ("patch.edgecolor", VStr axisFace);
    ("patch.facecolor", VStr gridColor);
    ("savefig.facecolor", VStr figureFace);
    ("savefig.edgecolor", VStr figureFace) ].

(** The keys of the mapping [set_context] returns, in their order. *)
Definition context_keys : list string :=
  (Dict.keys base_context ++ "figure.figsize" :: Dict.keys base_font)%list.

(** The single-letter colour codes [set_style] and [reset] rebind. *)
Definition short_codes : list string := chars "bgrmyck".

(** The keys the three toggles of [style] decide. *)
Definition toggle_keys : list string :=
  ("axes.grid" :: "axes.edgecolor" :: tick_size_keys)%list.

(** A host for the examples: a converter that takes RGB triples only, and
    a state with a few entries. *)
Definition example_to_rgb (c : color) : result rgb :=
  match c with
  | ColorRGB r g b => Ok (r, g, b)
  | ColorStr _ => Raise ValueError
  end.

Definition example_mpl : mpl :=
  {| rcParams := [ ("axes.grid", VBool true);
                   ("lines.linewidth", VNum (Float 3));
                   ("font.family", VStr "serif") ];
     rcParamsDefault := [ ("axes.grid", VBool false);
                          ("axes.facecolor", VStr "w") ];
     colors := [ ("w", (1, 1, 1)%float) ];
     cache := [ ("w", (1, 1, 1)%float) ];
     clears_cache := true |}.

(** Files for the examples: a theme whose second line mentions a slot key
    again, and a marker file that names the built-in theme on a line of
    its own. *)
Definition overwrite_lines : list string :=
  [ theme_line "axisFace" "#282c34";
    "  background: @axisFace;" +:+ Str.eol ].

Definition extra_files : files :=
  {| theme_name_file := Text ("default" +:+ Str.eol);
     styles_dir := fun name =>
       if String.eqb name "overwrite.less"
       then Text (String.concat EmptyString overwrite_lines)
       else Absent |}.

(** A converter that also takes colour strings, and the host after
    [style(theme='example')] with it. *)
Definition lenient_to_rgb (c : color) : result rgb :=
  match c with
  | ColorRGB r g b => Ok (r, g, b)
  | ColorStr _ => Ok (0, 0, 0)%float
  end.

Definition example_styled : mpl :=
  snd (style remove_dups lenient_to_rgb example_files (Some "example")
         "notebook" true false true (Int 1) example_mpl).
(* ================================================================= *)
(** * Properties *)

(** ** Dictionaries *)

Module DictFacts.

Lemma get_set {V : Type} (k k' : string) (v : V) (d : Dict.t V) :
  Dict.get k (Dict.set k' v d) = if String.eqb k' k then Some v else Dict.get k d.
Proof.
  induction d as [|[k0 v0] d IH]; simpl.
  - reflexivity.
  - destruct (String.eqb_spec k0 k') as [->|Hne]; simpl.
    + destruct (String.eqb k' k); reflexivity.
    + rewrite IH. destruct (String.eqb_spec k0 k) as [->|?]; [|reflexivity].
      apply String.eqb_neq in Hne. rewrite String.eqb_sym in Hne.
      rewrite Hne. reflexivity.
Qed.

Lemma update_snoc {V : Type} (d e : Dict.t V) (k : string) (v : V) :
  Dict.update d (e ++ [(k, v)])%list = Dict.set k v (Dict.update d e).
Proof. unfold Dict.update. rewrite fold_left_app. reflexivity. Qed.

(** After [d.update(e)] a key reads its last binding in [e], and its
    binding in [d] when [e] has none. *)
Lemma get_update {V : Type} (k : string) (d e : Dict.t V) :
  Dict.get k (Dict.update d e) =
  match Dict.get k (rev e) with
  | Some v => Some v
  | None => Dict.get k d
  end.
Proof.
  induction e as [|[k' v'] e IH] using rev_ind.
  - reflexivity.
  - rewrite update_snoc, get_set, rev_app_distr. simpl.
    destruct (String.eqb k' k); [reflexivity | exact IH].
Qed.

Lemma get_Some_elem {V : Type} (k : string) (v : V) (d : Dict.t V) :
  Dict.get k d = Some v -> (k, v) ∈ d.
Proof.
  induction d as [|[k' v'] d IH]; simpl; [discriminate|].
  destruct (String.eqb_spec k' k) as [->|_].
  - intros [= ->]. left.
  - intros H. right. auto.
Qed.

Lemma get_None {V : Type} (k : string) (d : Dict.t V) :
  k ∉ Dict.keys d -> Dict.get k d = None.
Proof.
  induction d as [|[k' v'] d IH]; simpl; [reflexivity|].
  intros H. destruct (String.eqb_spec k' k) as [->|_].
  - exfalso. apply H. left.
  - apply IH. intros Hin. apply H. right. exact Hin.
Qed.

Lemma get_update_other {V : Type} (k : string) (d e : Dict.t V) :
  k ∉ Dict.keys e -> Dict.get k (Dict.update d e) = Dict.get k d.
Proof.
  intros H. rewrite get_update, get_None; [reflexivity|].
  unfold Dict.keys in *. rewrite map_rev. intros Hin. apply H.
  apply list_elem_of_In, in_rev, list_elem_of_In. exact Hin.
Qed.

Lemma get_app {V : Type} (k : string) (d e : Dict.t V) :
  Dict.get k (d ++ e)%list =
  match Dict.get k d with
  | Some v => Some v
  | None => Dict.get k e
  end.
Proof.
  induction d as [|[k' v'] d IH]; simpl; [reflexivity|].
  destruct (String.eqb k' k); [reflexivity | exact IH].
Qed.

(** With distinct keys the last binding is the only one. *)
Lemma get_rev {V : Type} (k : string) (d : Dict.t V) :
  NoDup (Dict.keys d) -> Dict.get k (rev d) = Dict.get k d.
Proof.
  induction d as [|[k' v'] d IH]; simpl; [reflexivity|].
  intros H. apply NoDup_cons in H as [Hk H].
  rewrite get_app, (IH H). simpl.
  destruct (String.eqb_spec k' k) as [->|_].
  - rewrite (get_None k d Hk). reflexivity.
  - destruct (Dict.get k d); reflexivity.
Qed.

Lemma get_update_nodup {V : Type} (k : string) (d e : Dict.t V) :
  NoDup (Dict.keys e) ->
  Dict.get k (Dict.update d e) =
  match Dict.get k e with
  | Some v => Some v
  | None => Dict.get k d
  end.
Proof. intros H. rewrite get_update, (get_rev k e H). reflexivity. Qed.

End DictFacts.

(** ** Numbers *)


Lemma py_mul_convertible (v n : num) :
  convertible v -> convertible n -> exists w, py_mul v n = Ok w.
Proof.
  destruct v as [x|f], n as [y|g]; simpl; intros Hv Hn.
  - eauto.
  - destruct Hv as [f' ->]. simpl. eauto.
  - destruct Hn as [g' ->]. simpl. eauto.
  - eauto.
Qed.

Lemma py_mul_overflow (f : float) (z : Z) :
  int_to_float z = Raise OverflowError ->
  py_mul (Float f) (Int z) = Raise OverflowError.
Proof. intros H. simpl. rewrite H. reflexivity. Qed.

(** ** Exceptions *)

Lemma bind_Ok_inv {A B : Type} (r : result A) (k : A -> result B) (b : B) :
  mbind k r = Ok b -> exists a, r = Ok a /\ k a = Ok b.
Proof. destruct r as [a|e]; simpl; [eauto | discriminate]. Qed.

Lemma bind_Ok {A B : Type} (a : A) (k : A -> result B) :
  mbind k (Ok a) = k a.
Proof. reflexivity. Qed.

(** ** Scaling a dictionary *)


Lemma set_fresh {V : Type} (k : string) (v : V) (d : Dict.t V) :
  k ∉ Dict.keys d -> Dict.set k v d = (d ++ [(k, v)])%list.
Proof.
  induction d as [|[k' v'] d IH]; simpl; intros H; [reflexivity|].
  destruct (String.eqb_spec k' k) as [->|_].
  - exfalso. apply H. left.
  - f_equal. apply IH. intros Hin. apply H. right. exact Hin.
Qed.

Lemma update_fresh {V : Type} (d l : Dict.t V) :
  NoDup (Dict.keys (d ++ l)%list) -> Dict.update d l = (d ++ l)%list.
Proof.
  revert d. induction l as [|[k v] l IH]; intros d H.
  - rewrite app_nil_r. reflexivity.
  - change (Dict.update d ((k, v) :: l)) with (Dict.update (Dict.set k v d) l).
    assert (Hk : k ∉ Dict.keys d).
    { unfold Dict.keys in *. rewrite map_app in H. simpl in H.
      apply NoDup_app in H as (_ & H & _). intros Hin.
      apply (H k Hin). left. }
    rewrite (set_fresh k v d Hk), IH, <- app_assoc; [reflexivity|].
    rewrite <- app_assoc. exact H.
Qed.

Lemma of_items_nodup {V : Type} (l : Dict.t V) :
  NoDup (Dict.keys l) -> Dict.of_items l = l.
Proof. intros H. apply (update_fresh [] l). exact H. Qed.

Lemma mapM_scaled (factor : num) (d : Dict.t num) (items : Dict.t pyval) :
  mapM (fun kv => w ← py_mul (snd kv) factor; Ok (fst kv, VNum w)) d = Ok items ->
  Forall2 (scaled factor) d items.
Proof.
  revert items. induction d as [|[k v] d IH]; intros items H.
  - injection H as <-. constructor.
  - simpl in H.
    apply bind_Ok_inv in H as (kw & Hkw & H).
    apply bind_Ok_inv in H as (rest & Hrest & H).
    injection H as <-.
    apply bind_Ok_inv in Hkw as (w & Hw & Hkw). injection Hkw as <-.
    constructor; [|auto]. split; [reflexivity|]. exists w. auto.
Qed.

Lemma scaled_keys (factor : num) (d : Dict.t num) (m : Dict.t pyval) :
  Forall2 (scaled factor) d m -> Dict.keys m = Dict.keys d.
Proof.
  induction 1 as [|kv kw d m [Hk _] _ IH]; simpl; [reflexivity|].
  rewrite Hk, IH. reflexivity.
Qed.

Lemma scaled_get (factor : num) (d : Dict.t num) (m : Dict.t pyval)
    (k : string) (v : num) :
  Forall2 (scaled factor) d m -> Dict.get k d = Some v ->
  exists w, py_mul v factor = Ok w /\ Dict.get k m = Some (VNum w).
Proof.
  induction 1 as [|[k0 v0] [k1 v1] d m [Hk (w & Hw & Hv)] _ IH]; simpl;
    [discriminate|].
  simpl in Hk, Hw, Hv. subst k1 v1.
  destruct (String.eqb k0 k); [|exact IH].
  intros [= <-]. eauto.
Qed.

(** A dictionary with distinct keys scales to the list of its scaled
    entries, and the scaling raises only if a product does. *)
Lemma scale_items_inv (factor : num) (d : Dict.t num) (m : Dict.t pyval) :
  NoDup (Dict.keys d) -> scale_items d factor = Ok m ->
  Forall2 (scaled factor) d m.
Proof.
  intros Hd H. unfold scale_items in H.
  apply bind_Ok_inv in H as (items & Hitems & H). injection H as <-.
  apply mapM_scaled in Hitems.
  rewrite of_items_nodup; [exact Hitems|].
  rewrite (scaled_keys _ _ _ Hitems). exact Hd.
Qed.

Lemma scale_items_ok (factor : num) (d : Dict.t num) :
  Forall (fun kv => convertible (snd kv)) d -> convertible factor ->
  exists m, scale_items d factor = Ok m.
Proof.
  intros Hd Hf. unfold scale_items.
  enough (exists items,
    mapM (fun kv => w ← py_mul (snd kv) factor; Ok (fst kv, VNum w)) d
    = Ok items) as [items ->] by (simpl; eauto).
  induction Hd as [|[k v] d Hv _ [items IH]]; [exists []; reflexivity|].
  destruct (py_mul_convertible v factor Hv Hf) as [w Hw].
  exists ((k, VNum w) :: items). simpl in *. rewrite Hw. simpl.
  rewrite IH. reflexivity.
Qed.

(** ** set_context *)


Lemma base_context_keys : NoDup (Dict.keys base_context).
Proof. apply (bool_decide_unpack _). vm_compute. reflexivity. Qed.

Lemma base_font_keys : NoDup (Dict.keys base_font).
Proof. apply (bool_decide_unpack _). vm_compute. reflexivity. Qed.

Lemma base_context_convertible :
  Forall (fun kv : string * num => convertible (snd kv)) base_context.
Proof.
  repeat constructor; simpl; try (eexists; vm_compute; reflexivity).
Qed.

Lemma base_font_convertible :
  Forall (fun kv : string * num => convertible (snd kv)) base_font.
Proof.
  repeat constructor; simpl; try (eexists; vm_compute; reflexivity).
Qed.

Lemma scaling_convertible (c : string) (s : num) :
  Dict.getitem c scaling_table = Ok s -> convertible s.
Proof.
  unfold Dict.getitem. intros H.
  destruct (Dict.get c scaling_table) as [s'|] eqn:Hs; [|discriminate].
  injection H as ->. apply DictFacts.get_Some_elem in Hs.
  unfold scaling_table in Hs.
  repeat (apply elem_of_cons in Hs as [[= _ ->]|Hs];
          [simpl; try (eexists; vm_compute; reflexivity); exact I|]).
  inversion Hs.
Qed.

Lemma scaling_known (c : string) :
  c ∈ contexts -> exists s, Dict.getitem c scaling_table = Ok s.
Proof.
  unfold contexts. intros H.
  repeat (apply elem_of_cons in H as [->|H]; [eexists; reflexivity|]).
  inversion H.
Qed.

(** What [set_context] returns, when it returns. *)
Lemma set_context_inv (c : string) (fscale : num) (m : Dict.t pyval) :
  set_context c fscale = Ok m ->
  exists s cd x y fd,
    Dict.getitem c scaling_table = Ok s /\
    Forall2 (scaled s) base_context cd /\
    py_mul (Float 5.5) s = Ok x /\ py_mul (Float 4.5) s = Ok y /\
    Forall2 (scaled fscale) base_font fd /\
    m = Dict.update (Dict.set "figure.figsize" (VTuple x y) cd) fd.
Proof.
  unfold set_context. intros H.
  apply bind_Ok_inv in H as (s & Hs & H).
  apply bind_Ok_inv in H as (cd & Hcd & H).
  apply bind_Ok_inv in H as (x & Hx & H).
  apply bind_Ok_inv in H as (y & Hy & H).
  apply bind_Ok_inv in H as (fd & Hfd & H).
  injection H as <-.
  exists s, cd, x, y, fd.
  repeat split; auto using scale_items_inv, base_context_keys, base_font_keys.
Qed.

(** [set_context] returns for a known context and a font scale that
    converts to [float]. *)
Lemma set_context_ok (c : string) (fscale : num) :
  c ∈ contexts -> convertible fscale -> exists m, set_context c fscale = Ok m.
Proof.
  intros Hc Hf. destruct (scaling_known c Hc) as [s Hs].
  pose proof (scaling_convertible c s Hs) as Hconv.
  destruct (scale_items_ok s base_context base_context_convertible Hconv)
    as [cd Hcd].
  destruct (py_mul_convertible (Float 5.5) s I Hconv) as [x Hx].
  destruct (py_mul_convertible (Float 4.5) s I Hconv) as [y Hy].
  destruct (scale_items_ok fscale base_font base_font_convertible Hf)
    as [fd Hfd].
  unfold set_context.
  rewrite Hs, bind_Ok, Hcd, bind_Ok, Hx, bind_Ok, Hy, bind_Ok, Hfd, bind_Ok.
  eauto.
Qed.

(** A font scale that does not convert makes [set_context] raise. *)
Lemma set_context_overflow (c : string) (z : Z) :
  c ∈ contexts -> int_to_float z = Raise OverflowError ->
  set_context c (Int z) = Raise OverflowError.
Proof.
  intros Hc Hz. destruct (set_context c (Int z)) as [m|e] eqn:H.
  - apply set_context_inv in H as (s & cd & x & y & fd & _ & _ & _ & _ & Hfd & _).
    destruct (scaled_get _ _ _ "legend.fontsize" (Float 10.5) Hfd eq_refl)
      as (w & Hw & _).
    rewrite (py_mul_overflow _ _ Hz) in Hw. discriminate.
  - f_equal. revert H. unfold set_context.
    destruct (scaling_known c Hc) as [s Hs].
    pose proof (scaling_convertible c s Hs) as Hconv.
    destruct (scale_items_ok s base_context base_context_convertible Hconv)
      as [cd Hcd].
    destruct (py_mul_convertible (Float 5.5) s I Hconv) as [x Hx].
    destruct (py_mul_convertible (Float 4.5) s I Hconv) as [y Hy].
    rewrite Hs, bind_Ok, Hcd, bind_Ok, Hx, bind_Ok, Hy, bind_Ok.
    unfold scale_items, base_font. simpl. rewrite Hz. simpl.
    congruence.
Qed.

(** ** Strings *)

Module StrFacts.

#[local] Arguments String.append : simpl nomatch.
#[local] Arguments Ascii.eqb : simpl never.

Lemma append_nil_r (s : string) : s +:+ EmptyString = s.
Proof. induction s as [|c s IH]; simpl; [reflexivity | rewrite IH; reflexivity]. Qed.

Lemma append_assoc (a b c : string) : (a +:+ b) +:+ c = a +:+ (b +:+ c).
Proof. induction a as [|x a IH]; simpl; [reflexivity | rewrite IH; reflexivity]. Qed.

Lemma length_append (a b : string) :
  String.length (a +:+ b) = (String.length a + String.length b)%nat.
Proof. induction a as [|x a IH]; simpl; [reflexivity | rewrite IH; reflexivity]. Qed.

Lemma has_char_append (c : ascii) (a b : string) :
  has_char c (a +:+ b) = has_char c a || has_char c b.
Proof.
  induction a as [|x a IH]; simpl; [reflexivity|].
  rewrite IH, orb_assoc. reflexivity.
Qed.

(** *** split *)

Lemma split_nonempty (sep : ascii) (s : string) : Str.split sep s <> [].
Proof.
  induction s as [|c s IH]; simpl; [discriminate|].
  destruct (Ascii.eqb c sep); [discriminate|].
  destruct (Str.split sep s); [contradiction | discriminate].
Qed.

Lemma split_no_sep (sep : ascii) (s : string) :
  has_char sep s = false -> Str.split sep s = [s].
Proof.
  induction s as [|c s IH]; simpl; [reflexivity|].
  intros H. apply orb_false_elim in H as [Hc Hs].
  rewrite Ascii.eqb_sym, Hc, (IH Hs). reflexivity.
Qed.

(** The pieces of [a], then the pieces of [b]. *)
Lemma split_append (sep : ascii) (a b : string) :
  Str.split sep (a +:+ String sep b)
  = (Str.split sep a ++ Str.split sep b)%list.
Proof.
  induction a as [|c a IH]; simpl.
  - rewrite Ascii.eqb_refl. reflexivity.
  - destruct (Ascii.eqb c sep); rewrite IH; [reflexivity|].
    pose proof (split_nonempty sep a) as Hne.
    destruct (Str.split sep a); [contradiction | reflexivity].
Qed.

(** *** Slicing *)

Lemma drop_append (a b : string) : Str.drop (String.length a) (a +:+ b) = b.
Proof. induction a as [|c a IH]; simpl; [destruct b|]; auto. Qed.

Lemma suffix_append (n : nat) (a b : string) :
  String.length b = n -> Str.suffix n (a +:+ b) = b.
Proof.
  intros <-. unfold Str.suffix. rewrite length_append.
  replace (String.length a + String.length b - String.length b)%nat
    with (String.length a) by lia.
  apply drop_append.
Qed.

(** *** startswith and in *)

Lemma startswith_append (p b : string) : Str.startswith p (p +:+ b) = true.
Proof.
  induction p as [|c p IH]; simpl; [reflexivity|].
  rewrite Ascii.eqb_refl. exact IH.
Qed.

Lemma startswith_inv (p s : string) :
  Str.startswith p s = true -> exists b, s = p +:+ b.
Proof.
  revert s. induction p as [|c p IH]; intros s H.
  - exists s. reflexivity.
  - destruct s as [|x s]; [discriminate|]. simpl in H.
    apply andb_prop in H as [Hc H]. apply Ascii.eqb_eq in Hc as ->.
    destruct (IH s H) as [b ->]. exists b. reflexivity.
Qed.

Lemma contains_unfold (p s : string) :
  Str.contains p s =
  if (String.length s <? String.length p)%nat then false
  else Str.startswith p s
       || match s with
          | EmptyString => false
          | String _ s' => Str.contains p s'
          end.
Proof. destruct s; reflexivity. Qed.

Lemma contains_append (p a b : string) :
  Str.contains p (a +:+ p +:+ b) = true.
Proof.
  induction a as [|c a IH].
  - change (EmptyString +:+ p +:+ b) with (p +:+ b).
    rewrite contains_unfold, startswith_append, length_append.
    destruct (Nat.ltb_spec (String.length p + String.length b) (String.length p));
      [lia | reflexivity].
  - change (String c a +:+ p +:+ b) with (String c (a +:+ p +:+ b)).
    rewrite contains_unfold, IH, orb_true_r.
    simpl String.length. rewrite !length_append.
    destruct (Nat.ltb_spec (S (String.length a + (String.length p + String.length b)))
                (String.length p)); [lia | reflexivity].
Qed.

Lemma contains_inv (p s : string) :
  Str.contains p s = true -> exists a b, s = a +:+ p +:+ b.
Proof.
  induction s as [|c s IH]; rewrite contains_unfold; intros H.
  - destruct (String.length EmptyString <? String.length p)%nat; [discriminate|].
    rewrite orb_false_r in H. apply startswith_inv in H as [b ->].
    exists EmptyString, b. reflexivity.
  - destruct (String.length (String c s) <? String.length p)%nat;
      [discriminate|].
    apply orb_prop in H as [H|H].
    + apply startswith_inv in H as [b ->]. exists EmptyString, b. reflexivity.
    + destruct (IH H) as (a & b & ->). exists (String c a), b. reflexivity.
Qed.

(** A substring of a part is a substring of the whole. *)
Lemma contains_part (p a t b : string) :
  Str.contains p t = true -> Str.contains p (a +:+ t +:+ b) = true.
Proof.
  intros H. apply contains_inv in H as (a' & b' & ->).
  rewrite !append_assoc, <- (append_assoc a a').
  apply contains_append.
Qed.

(** *** strip *)

Lemma lstrip_part (s : string) : exists a, s = a +:+ Str.lstrip s.
Proof.
  induction s as [|c s [a IH]]; simpl.
  - exists EmptyString. reflexivity.
  - destruct (Str.is_space c).
    + exists (String c a). simpl. rewrite <- IH. reflexivity.
    + exists EmptyString. reflexivity.
Qed.

Lemma rstrip_part (s : string) : exists b, s = Str.rstrip s +:+ b.
Proof.
  induction s as [|c s [b IH]]; simpl.
  - exists EmptyString. reflexivity.
  - destruct (Str.rstrip s) as [|x r] eqn:Hr.
    + destruct (Str.is_space c).
      * exists (String c s). reflexivity.
      * exists b. simpl. rewrite IH at 1. reflexivity.
    + exists b. simpl. rewrite IH at 1. reflexivity.
Qed.

Lemma strip_part (s : string) : exists a b, s = a +:+ Str.strip s +:+ b.
Proof.
  unfold Str.strip. destruct (lstrip_part s) as [a Ha].
  destruct (rstrip_part (Str.lstrip s)) as [b Hb].
  exists a, b. rewrite <- Hb. exact Ha.
Qed.

(** What is found in the stripped line is in the line. *)
Lemma contains_strip (p s : string) :
  Str.contains p (Str.strip s) = true -> Str.contains p s = true.
Proof.
  intros H. destruct (strip_part s) as (a & b & Hs).
  rewrite Hs. apply contains_part. exact H.
Qed.

(** *** readlines *)

Lemma readlines_line (body rest : string) :
  has_char Str.nl body = false ->
  Str.readlines (body +:+ String Str.nl rest)
  = (body +:+ Str.eol) :: Str.readlines rest.
Proof.
  induction body as [|c body IH]; simpl; intros H.
  - reflexivity.
  - apply orb_false_elim in H as [Hc H].
    rewrite Ascii.eqb_sym in Hc. rewrite Hc, (IH H). reflexivity.
Qed.

(** *** list.index *)

Lemma index_first (x : string) (l : list string) (j : nat) :
  l !! j = Some x ->
  (forall k y, (k < j)%nat -> l !! k = Some y -> y <> x) ->
  Str.index x l = Ok j.
Proof.
  revert j. induction l as [|y l IH]; intros j Hj Hfirst; [discriminate|].
  simpl. destruct j as [|j]; simpl in Hj.
  - injection Hj as ->. rewrite String.eqb_refl. reflexivity.
  - destruct (String.eqb_spec y x) as [Heq|_].
    + exfalso. apply (Hfirst 0%nat y); [lia | reflexivity | exact Heq].
    + rewrite (IH j Hj); [reflexivity|].
      intros k z Hk Hz. apply (Hfirst (S k) z); [lia | exact Hz].
Qed.

Lemma index_elem (x : string) (l : list string) :
  x ∈ l -> exists j, Str.index x l = Ok j /\ l !! j = Some x.
Proof.
  induction l as [|y l IH]; intros H; [inversion H|].
  simpl. destruct (String.eqb_spec y x) as [->|Hne].
  - exists 0%nat. split; reflexivity.
  - apply elem_of_cons in H as [->|H]; [congruence|].
    destruct (IH H) as (j & -> & Hj). exists (S j). split; [reflexivity | exact Hj].
Qed.

End StrFacts.

Lemma set_context_font_entry (c : string) (fscale : num) (m : Dict.t pyval)
    (k : string) (v : num) :
  set_context c fscale = Ok m -> Dict.get k base_font = Some v ->
  exists w, py_mul v fscale = Ok w /\ Dict.get k m = Some (VNum w).
Proof.
  intros H Hk.
  apply set_context_inv in H as (s & cd & x & y & fd & _ & _ & _ & _ & Hfd & ->).
  destruct (scaled_get _ _ _ k v Hfd Hk) as (w & Hw & Hget).
  exists w. split; [exact Hw|].
  rewrite DictFacts.get_update_nodup, Hget; [reflexivity|].
  rewrite (scaled_keys _ _ _ Hfd). exact base_font_keys.
Qed.

Lemma set_context_context_entry (c : string) (fscale : num)
    (m : Dict.t pyval) (k : string) (v : num) :
  set_context c fscale = Ok m -> Dict.get k base_context = Some v ->
  exists s w, Dict.getitem c scaling_table = Ok s /\
              py_mul v s = Ok w /\ Dict.get k m = Some (VNum w).
Proof.
  intros H Hk.
  apply set_context_inv in H as (s & cd & x & y & fd & Hs & Hcd & _ & _ & Hfd & ->).
  destruct (scaled_get _ _ _ k v Hcd Hk) as (w & Hw & Hget).
  exists s, w. split; [exact Hs|]. split; [exact Hw|].
  apply DictFacts.get_Some_elem in Hk.
  rewrite DictFacts.get_update_other, DictFacts.get_set.
  - destruct (String.eqb_spec "figure.figsize" k) as [<-|_]; [|exact Hget].
    exfalso. revert Hk. unfold base_context.
    rewrite !elem_of_cons, elem_of_nil. intros Hk.
    repeat (destruct Hk as [[= ?]|Hk]); exact Hk.
  - rewrite (scaled_keys _ _ _ Hfd). revert Hk. unfold base_context, base_font.
    simpl. rewrite !elem_of_cons, !elem_of_nil. intros Hk Hf.
    repeat (destruct Hk as [[= -> _]|Hk];
            [repeat (destruct Hf as [[= ?]|Hf]); exact Hf|]).
    exact Hk.
Qed.

(** C3: for each of the four contexts [set_context(c, 1.0)] returns a
    mapping in which every base-context entry is the base value times the
    constant of the context (paper 0.8, notebook 1.0, talk 1.3, poster 1.6)
    and the figure size is [(5.5 * scale, 4.5 * scale)]. *)
Theorem set_context_scales_base_context (c : string) (kc : num) :
  Dict.get c spec_scale = Some kc ->
  exists m x y,
    set_context c (Float 1) = Ok m /\
    (forall k v, Dict.get k base_context = Some v ->
       exists w w', Dict.get k m = Some (VNum w) /\
                    py_mul v kc = Ok w' /\ py_eq w w' = true) /\
    py_mul (Float 5.5) kc = Ok x /\ py_mul (Float 4.5) kc = Ok y /\
    Dict.get "figure.figsize" m = Some (VTuple x y).
Proof.
  intros Hc. apply DictFacts.get_Some_elem in Hc. unfold spec_scale in Hc.
  repeat (apply elem_of_cons in Hc as [[= -> ->]|Hc];
    [ eexists _, _, _; split; [vm_compute; reflexivity|];
      split;
      [ intros k v Hk; apply DictFacts.get_Some_elem in Hk;
        unfold base_context in Hk;
        repeat (apply elem_of_cons in Hk as [[= -> ->]|Hk];
                [eexists _, _; repeat split; vm_compute; reflexivity|]);
        inversion Hk
      | repeat split; vm_compute; reflexivity ]
    | ]).
  inversion Hc.
Qed.

Lemma set_context_scales_base_context_witness :
  exists m x y,
    set_context "talk" (Float 1) = Ok m /\
    (forall k v, Dict.get k base_context = Some v ->
       exists w w', Dict.get k m = Some (VNum w) /\
                    py_mul v (Float 1.3) = Ok w' /\ py_eq w w' = true) /\
    py_mul (Float 5.5) (Float 1.3) = Ok x /\
    py_mul (Float 4.5) (Float 1.3) = Ok y /\
    Dict.get "figure.figsize" m = Some (VTuple x y).
Proof.
  apply (set_context_scales_base_context "talk" (Float 1.3)). reflexivity.
Defined.

(** C4: for every context and every font scale, each font key of the
    mapping [set_context] returns is [base_font[k] * fscale], whatever the
    context: the same value for any two contexts. *)
Theorem set_context_fonts (c1 c2 : string) (fscale : num) :
  c1 ∈ contexts -> c2 ∈ contexts -> convertible fscale ->
  exists m1 m2,
    set_context c1 fscale = Ok m1 /\ set_context c2 fscale = Ok m2 /\
    forall k v, Dict.get k base_font = Some v ->
      exists w, py_mul v fscale = Ok w /\
                Dict.get k m1 = Some (VNum w) /\
                Dict.get k m2 = Some (VNum w).
Proof.
  intros H1 H2 Hf.
  destruct (set_context_ok c1 fscale H1 Hf) as [m1 Hm1].
  destruct (set_context_ok c2 fscale H2 Hf) as [m2 Hm2].
  exists m1, m2. split; [exact Hm1|]. split; [exact Hm2|].
  intros k v Hk.
  destruct (set_context_font_entry c1 fscale m1 k v Hm1 Hk) as (w & Hw & Hg1).
  destruct (set_context_font_entry c2 fscale m2 k v Hm2 Hk) as (w' & Hw' & Hg2).
  exists w. rewrite Hw in Hw'. injection Hw' as <-. auto.
Qed.

Lemma set_context_fonts_witness :
  exists m1 m2,
    set_context "paper" (Float 1.5) = Ok m1 /\
    set_context "poster" (Float 1.5) = Ok m2 /\
    forall k v, Dict.get k base_font = Some v ->
      exists w, py_mul v (Float 1.5) = Ok w /\
                Dict.get k m1 = Some (VNum w) /\
                Dict.get k m2 = Some (VNum w).
Proof.
  apply (set_context_fonts "paper" "poster" (Float 1.5)).
  - unfold contexts. repeat constructor.
  - unfold contexts. repeat constructor.
  - exact I.
Defined.

(** C7: a context name outside the table of four makes [set_context]
    raise [KeyError]; no default is used and no mapping is returned. *)
Theorem set_context_unknown (c : string) (fscale : num) :
  c ∉ contexts -> set_context c fscale = Raise KeyError.
Proof.
  intros H. unfold set_context, Dict.getitem.
  rewrite (DictFacts.get_None c scaling_table H). reflexivity.
Qed.

Lemma set_context_unknown_witness :
  set_context "slides" (Float 1) = Raise KeyError.
Proof.
  apply (set_context_unknown "slides" (Float 1)).
  unfold contexts. rewrite !elem_of_cons, elem_of_nil.
  intros H. repeat (destruct H as [[= ]|H]). exact H.
Defined.

(** ** get_theme_style on the built-in theme *)

(** C5: [get_theme_style("default")] returns the five built-in slot
    colours and the accent list of 14 entries, none of them repeated,
    whatever the theme files are: none is read. *)
Theorem get_theme_style_default (list_of_set : list string -> list string)
    (fs : files) :
  get_theme_style list_of_set fs "default" =
    Ok ([ ("axisFace", "white"); ("figureFace", "white");
          ("textColor", ".15"); ("edgeColor", ".8"); ("gridColor", ".8") ],
        get_color_list) /\
  length get_color_list = 14%nat /\
  NoDup get_color_list.
Proof.
  split; [reflexivity|]. split; [reflexivity|].
  apply (bool_decide_unpack _). vm_compute. reflexivity.
Qed.

(** ** infer_theme *)

Lemma infer_theme_absent (fs : files) :
  theme_name_file fs = Absent -> infer_theme fs = Ok "default".
Proof. intros H. unfold infer_theme. rewrite H. reflexivity. Qed.

Lemma infer_theme_unreadable (fs : files) (e : exn) :
  theme_name_file fs = Unreadable e -> infer_theme fs = Raise e.
Proof. intros H. unfold infer_theme. rewrite H. reflexivity. Qed.

Lemma readlines_head (s : string) (l : string) (ls : list string) :
  Str.readlines s = l :: ls -> Str.startswith l s = true.
Proof.
  revert l ls. induction s as [|c s IH]; simpl; intros l ls H; [discriminate|].
  destruct (Ascii.eqb c Str.nl).
  - injection H as <- _. simpl. rewrite Ascii.eqb_refl. reflexivity.
  - destruct (Str.readlines s) as [|l' ls'] eqn:Hs.
    + injection H as <- _. simpl. rewrite Ascii.eqb_refl. reflexivity.
    + injection H as <- _. simpl. rewrite Ascii.eqb_refl. simpl. eauto.
Qed.

(** A marker file that is not empty gives its first line, terminator
    included. *)
Lemma infer_theme_first_line (fs : files) (c : ascii) (s : string) :
  theme_name_file fs = Text (String c s) ->
  exists line rest,
    Str.readlines (String c s) = line :: rest /\
    Str.startswith line (String c s) = true /\
    infer_theme fs = Ok line.
Proof.
  intros H. unfold infer_theme. rewrite H.
  destruct (Str.readlines (String c s)) as [|line rest] eqn:Hr.
  - simpl in Hr. destruct (Ascii.eqb c Str.nl); [discriminate|].
    destruct (Str.readlines s); discriminate.
  - exists line, rest. split; [reflexivity|].
    split; [exact (readlines_head _ _ _ Hr)|].
    simpl path_exists. simpl open. rewrite bind_Ok, Hr. reflexivity.
Qed.

(** C6, at its failing input: a marker file that exists and is empty makes
    [infer_theme] raise [IndexError], which is not an I/O error. *)
Theorem infer_theme_empty_marker (styles : string -> file) :
  infer_theme {| theme_name_file := Text EmptyString; styles_dir := styles |}
  = Raise IndexError.
Proof. reflexivity. Qed.

(** ** style *)

(** What lines 111 to 148 of [set_style] build: the mapping of the context,
    the tick override when asked for, then the 14 entries of the theme. *)
Lemma set_style_rcdict_inv (list_of_set : list string -> list string)
    (fs : files) (rcdict : Dict.t pyval) (theme : string)
    (grid ticks spines : bool) (m : Dict.t pyval) (clist : list string) :
  set_style_rcdict list_of_set fs rcdict theme grid ticks spines
  = Ok (m, clist) ->
  exists style_dict,
    Dict.keys style_dict = style_keys /\
    m = Dict.update (if ticks then Dict.update rcdict tick_dict else rcdict)
          style_dict.
Proof.
  unfold set_style_rcdict. intros H.
  apply bind_Ok_inv in H as (st & _ & H).
  apply bind_Ok_inv in H as (figureFace & _ & H).
  apply bind_Ok_inv in H as (axisFace & _ & H).
  apply bind_Ok_inv in H as (textColor & _ & H).
  apply bind_Ok_inv in H as (edgeColor & _ & H).
  apply bind_Ok_inv in H as (gridColor & _ & H).
  match type of H with
  | Ok (Dict.update _ ?sd, _) = _ => exists sd
  end.
  injection H as <- _. split; reflexivity.
Qed.

Lemma style_rcdict_inv (list_of_set : list string -> list string)
    (fs : files) (theme : option string) (c : string)
    (grid ticks spines : bool) (fscale : num) (m : Dict.t pyval) :
  style_rcdict list_of_set fs theme c grid ticks spines fscale = Ok m ->
  exists rcdict style_dict,
    set_context c fscale = Ok rcdict /\
    Dict.keys style_dict = style_keys /\
    m = Dict.update (if ticks then Dict.update rcdict tick_dict else rcdict)
          style_dict.
Proof.
  unfold style_rcdict. intros H.
  apply bind_Ok_inv in H as (rcdict & Hrc & H).
  apply bind_Ok_inv in H as (theme' & _ & H).
  apply bind_Ok_inv in H as ([m' clist] & Hst & H).
  injection H as <-.
  apply set_style_rcdict_inv in Hst as (sd & Hk & ->).
  exists rcdict, sd. auto.
Qed.

(** With the built-in theme [style] gets as far as the sink whenever
    [set_context] returns. *)
Lemma style_rcdict_default_ok (list_of_set : list string -> list string)
    (fs : files) (c : string) (grid ticks spines : bool) (fscale : num)
    (rcdict : Dict.t pyval) :
  set_context c fscale = Ok rcdict ->
  exists m,
    style_rcdict list_of_set fs (Some "default") c grid ticks spines fscale
    = Ok m.
Proof.
  intros H. unfold style_rcdict. rewrite H, !bind_Ok.
  eexists. reflexivity.
Qed.

Lemma tick_keys_not_style (k : string) :
  k ∈ tick_size_keys -> k ∉ style_keys.
Proof.
  unfold tick_size_keys, style_keys.
  rewrite !elem_of_cons, !elem_of_nil. intros Hk Hs.
  repeat (destruct Hk as [->|Hk];
          [repeat (destruct Hs as [[= ]|Hs]); exact Hs|]).
  exact Hk.
Qed.

Lemma tick_keys_base_context (k : string) :
  k ∈ tick_size_keys -> Dict.get k base_context = Some (Int 0).
Proof.
  unfold tick_size_keys. rewrite !elem_of_cons, elem_of_nil. intros Hk.
  repeat (destruct Hk as [->|Hk]; [reflexivity|]). destruct Hk.
Qed.

Lemma zero_scaled (c : string) (s n : num) :
  Dict.getitem c scaling_table = Ok s -> py_mul (Int 0) s = Ok n ->
  py_eq n (Int 0) = true /\ (c = "notebook" -> n = Int 0).
Proof.
  unfold Dict.getitem. intros Hs Hn.
  destruct (Dict.get c scaling_table) as [s'|] eqn:Hc; [|discriminate].
  injection Hs as ->. apply DictFacts.get_Some_elem in Hc.
  unfold scaling_table in Hc.
  repeat (apply elem_of_cons in Hc as [[= -> ->]|Hc];
          [vm_compute in Hn; injection Hn as <-;
           split; [vm_compute; reflexivity | intros [= ]; reflexivity]|]).
  inversion Hc.
Qed.

(** C8: with the built-in theme and [ticks=True] the mapping [style] hands
    to the host has major tick sizes 6 and minor tick sizes 3 for x and y;
    with [ticks=False] the four entries are the base-context value 0
    scaled by the context, which is 0. *)
Theorem style_default_tick_sizes (list_of_set : list string -> list string)
    (fs : files) (c : string) (grid spines : bool) (fscale : num) :
  c ∈ contexts -> convertible fscale ->
  (exists m,
     style_rcdict list_of_set fs (Some "default") c grid true spines fscale
     = Ok m /\
     Dict.get "xtick.major.size" m = Some (VNum (Int 6)) /\
     Dict.get "ytick.major.size" m = Some (VNum (Int 6)) /\
     Dict.get "xtick.minor.size" m = Some (VNum (Int 3)) /\
     Dict.get "ytick.minor.size" m = Some (VNum (Int 3))) /\
  (exists m s,
     style_rcdict list_of_set fs (Some "default") c grid false spines fscale
     = Ok m /\
     Dict.getitem c scaling_table = Ok s /\
     forall k, k ∈ tick_size_keys ->
       exists n, Dict.get k base_context = Some (Int 0) /\
                 py_mul (Int 0) s = Ok n /\
                 Dict.get k m = Some (VNum n) /\
                 py_eq n (Int 0) = true /\
                 (c = "notebook" -> n = Int 0)).
Proof.
  intros Hc Hf. destruct (set_context_ok c fscale Hc Hf) as [rc Hrc]. split.
  - destruct (style_rcdict_default_ok list_of_set fs c grid true spines
                fscale rc Hrc) as [m Hm].
    exists m. split; [exact Hm|].
    apply style_rcdict_inv in Hm as (rc' & sd & Hrc' & Hsd & ->).
    assert (Hget : forall k v, k ∈ tick_size_keys ->
              Dict.get k (rev tick_dict) = Some v ->
              Dict.get k (Dict.update (Dict.update rc' tick_dict) sd) = Some v).
    { intros k v Hk Hv.
      rewrite DictFacts.get_update_other, DictFacts.get_update, Hv;
        [reflexivity|].
      rewrite Hsd. exact (tick_keys_not_style k Hk). }
    unfold tick_size_keys in Hget.
    repeat split; apply Hget; try reflexivity;
      rewrite !elem_of_cons; auto 6.
  - destruct (style_rcdict_default_ok list_of_set fs c grid false spines
                fscale rc Hrc) as [m Hm].
    destruct (scaling_known c Hc) as [s Hs].
    exists m, s. split; [exact Hm|]. split; [exact Hs|].
    intros k Hk.
    apply style_rcdict_inv in Hm as (rc' & sd & Hrc' & Hsd & ->).
    pose proof (tick_keys_base_context k Hk) as Hbase.
    destruct (set_context_context_entry c fscale rc' k (Int 0) Hrc' Hbase)
      as (s' & n & Hs' & Hn & Hget).
    rewrite Hs in Hs'. injection Hs' as <-.
    exists n. split; [exact Hbase|]. split; [exact Hn|].
    split.
    + rewrite DictFacts.get_update_other; [exact Hget|].
      rewrite Hsd. exact (tick_keys_not_style k Hk).
    + exact (zero_scaled c s n Hs Hn).
Qed.

Lemma style_default_tick_sizes_witness :
  (exists m,
     style_rcdict (fun l => l) {| theme_name_file := Absent;
                                  styles_dir := fun _ => Absent |}
       (Some "default") "notebook" true true true (Int 1) = Ok m /\
     Dict.get "xtick.major.size" m = Some (VNum (Int 6)) /\
     Dict.get "ytick.major.size" m = Some (VNum (Int 6)) /\
     Dict.get "xtick.minor.size" m = Some (VNum (Int 3)) /\
     Dict.get "ytick.minor.size" m = Some (VNum (Int 3))) /\
  (exists m s,
     style_rcdict (fun l => l) {| theme_name_file := Absent;
                                  styles_dir := fun _ => Absent |}
       (Some "default") "notebook" true false true (Int 1) = Ok m /\
     Dict.getitem "notebook" scaling_table = Ok s /\
     forall k, k ∈ tick_size_keys ->
       exists n, Dict.get k base_context = Some (Int 0) /\
                 py_mul (Int 0) s = Ok n /\
                 Dict.get k m = Some (VNum n) /\
                 py_eq n (Int 0) = true /\
                 ("notebook" = "notebook" -> n = Int 0)).
Proof.
  apply (style_default_tick_sizes (fun l => l)
           {| theme_name_file := Absent; styles_dir := fun _ => Absent |}
           "notebook" true true (Int 1)).
  - unfold contexts. repeat constructor.
  - simpl. eexists. vm_compute. reflexivity.
Defined.

(** ** The merge [style] performs *)

(** The mapping [style] hands to the host holds no key of [base_style]:
    that table is merged nowhere. *)
Lemma style_rcdict_drops_base_style
    (list_of_set : list string -> list string) (fs : files)
    (theme : option string) (c : string) (grid ticks spines : bool)
    (fscale : num) (m : Dict.t pyval) (k : string) :
  style_rcdict list_of_set fs theme c grid ticks spines fscale = Ok m ->
  k ∈ Dict.keys base_style -> Dict.get k m = None.
Proof.
  intros Hm Hk.
  apply style_rcdict_inv in Hm as (rc & sd & Hrc & Hsd & ->).
  apply set_context_inv in Hrc as (s & cd & x & y & fd & _ & Hcd & _ & _ & Hfd & ->).
  unfold base_style in Hk. simpl in Hk.
  rewrite !elem_of_cons, elem_of_nil in Hk.
  assert (Hstyle : k ∉ style_keys).
  { unfold style_keys. rewrite !elem_of_cons, elem_of_nil. intros Hs.
    repeat (destruct Hk as [->|Hk];
            [repeat (destruct Hs as [[= ]|Hs]); exact Hs|]).
    exact Hk. }
  assert (Htick : k ∉ Dict.keys tick_dict).
  { simpl. rewrite !elem_of_cons, elem_of_nil. intros Hs.
    repeat (destruct Hk as [->|Hk];
            [repeat (destruct Hs as [[= ]|Hs]); exact Hs|]).
    exact Hk. }
  assert (Hfont : k ∉ Dict.keys fd).
  { rewrite (scaled_keys _ _ _ Hfd). simpl.
    rewrite !elem_of_cons, elem_of_nil. intros Hs.
    repeat (destruct Hk as [->|Hk];
            [repeat (destruct Hs as [[= ]|Hs]); exact Hs|]).
    exact Hk. }
  assert (Hctx : k ∉ Dict.keys cd).
  { rewrite (scaled_keys _ _ _ Hcd). simpl.
    rewrite !elem_of_cons, elem_of_nil. intros Hs.
    repeat (destruct Hk as [->|Hk];
            [repeat (destruct Hs as [[= ]|Hs]); exact Hs|]).
    exact Hk. }
  assert (Hfig : String.eqb "figure.figsize" k = false).
  { repeat (destruct Hk as [->|Hk]; [reflexivity|]). destruct Hk. }
  rewrite DictFacts.get_update_other by (rewrite Hsd; exact Hstyle).
  destruct ticks.
  - rewrite DictFacts.get_update_other by exact Htick.
    rewrite DictFacts.get_update_other by exact Hfont.
    rewrite DictFacts.get_set, Hfig. apply DictFacts.get_None, Hctx.
  - rewrite DictFacts.get_update_other by exact Hfont.
    rewrite DictFacts.get_set, Hfig. apply DictFacts.get_None, Hctx.
Qed.

(** C1, at its failing input: [style(theme="default")] builds a mapping
    without the [base_style] key 'axes.axisbelow', which no later stage
    writes either; [base_style] is not a stage of the merge. *)
Theorem style_default_lacks_base_style
    (list_of_set : list string -> list string) (fs : files) :
  exists m,
    style_rcdict list_of_set fs (Some "default") "notebook" true false true
      (Int 1) = Ok m /\
    Dict.get "axes.axisbelow" base_style = Some (VBool true) /\
    Dict.get "axes.axisbelow" m = None /\
    Forall (fun k => Dict.get k m = None) (Dict.keys base_style).
Proof.
  eexists. split; [vm_compute; reflexivity|].
  split; [reflexivity|]. split; [reflexivity|].
  repeat constructor.
Qed.

(** ** reset *)

(** C10: after [reset()] the short codes 'm' and 'y' both hold the triple
    (0.75, 0.75, 0.0): the seven restored colours contain a duplicate and
    'm' is not magenta. *)
Theorem reset_m_equals_y (to_rgb : color -> result rgb) (m : mpl) :
  rgb_passthrough to_rgb ->
  exists m',
    reset to_rgb m = (Ok tt, m') /\
    Dict.get "m" (colors m') = Some (0.75, 0.75, 0)%float /\
    Dict.get "y" (colors m') = Some (0.75, 0.75, 0)%float /\
    Dict.get "m" (cache m') = Dict.get "y" (cache m') /\
    ~ NoDup ((fun code => Dict.get code (colors m')) <$> chars "bgrmyck") /\
    Dict.get "m" (colors m') <> Some magenta.
Proof.
  intros H. unfold reset, reset_colors. simpl zip. cbn [set_codes].
  rewrite !H by reflexivity.
  eexists. split; [reflexivity|].
  cbn [colors cache clears_cache with_rcParams with_code].
  assert (Hm : forall d : Dict.t rgb,
    Dict.get "m"
      (Dict.set "k" (0, 0, 0)%float
         (Dict.set "c" (0, 0.75, 0.75)%float
            (Dict.set "y" (0.75, 0.75, 0)%float
               (Dict.set "m" (0.75, 0.75, 0)%float d))))
    = Some (0.75, 0.75, 0)%float).
  { intros d. rewrite !DictFacts.get_set. reflexivity. }
  assert (Hy : forall d : Dict.t rgb,
    Dict.get "y"
      (Dict.set "k" (0, 0, 0)%float
         (Dict.set "c" (0, 0.75, 0.75)%float
            (Dict.set "y" (0.75, 0.75, 0)%float d)))
    = Some (0.75, 0.75, 0)%float).
  { intros d. rewrite !DictFacts.get_set. reflexivity. }
  rewrite !Hm, !Hy. repeat split.
  - destruct (clears_cache m); [reflexivity|]. rewrite Hm, Hy. reflexivity.
  - cbn [chars fmap list_fmap]. rewrite Hm, Hy. intros Hnd.
    do 3 (apply NoDup_cons in Hnd as [_ Hnd]).
    apply NoDup_cons in Hnd as [Hnd _]. apply Hnd. left.
  - unfold magenta. intros Heq.
    assert (H1 : (0.75 = 1)%float) by congruence.
    apply (f_equal (fun x => PrimFloat.eqb x 1)) in H1.
    vm_compute in H1. discriminate.
Qed.

Lemma reset_m_equals_y_witness :
  exists m',
    reset (fun c => match c with
                    | ColorRGB r g b => Ok (r, g, b)
                    | ColorStr _ => Raise ValueError
                    end)
      {| rcParams := []; rcParamsDefault := [];
         colors := []; cache := []; clears_cache := true |} = (Ok tt, m') /\
    Dict.get "m" (colors m') = Some (0.75, 0.75, 0)%float /\
    Dict.get "y" (colors m') = Some (0.75, 0.75, 0)%float /\
    Dict.get "m" (cache m') = Dict.get "y" (cache m') /\
    ~ NoDup ((fun code => Dict.get code (colors m')) <$> chars "bgrmyck") /\
    Dict.get "m" (colors m') <> Some magenta.
Proof.
  apply (reset_m_equals_y _ _). intros r g b _ _ _. reflexivity.
Defined.

(** ** The stages of the merge *)

Lemma style_keys_nodup : NoDup style_keys.
Proof. apply (bool_decide_unpack _). vm_compute. reflexivity. Qed.

Lemma tick_dict_keys : NoDup (Dict.keys tick_dict).
Proof. apply (bool_decide_unpack _). vm_compute. reflexivity. Qed.

(** An entry of the mapping [style] hands to the host comes from the last
    stage that has its key: the theme's style, the tick override, the
    fonts, the figure size, the scaled context. *)
Lemma style_rcdict_lookup (list_of_set : list string -> list string)
    (fs : files) (theme : option string) (c : string)
    (grid ticks spines : bool) (fscale : num) (m : Dict.t pyval) :
  style_rcdict list_of_set fs theme c grid ticks spines fscale = Ok m ->
  exists s cd x y fd style_dict,
    Dict.getitem c scaling_table = Ok s /\
    Forall2 (scaled s) base_context cd /\
    py_mul (Float 5.5) s = Ok x /\ py_mul (Float 4.5) s = Ok y /\
    Forall2 (scaled fscale) base_font fd /\
    Dict.keys style_dict = style_keys /\
    forall k,
      Dict.get k m =
      match Dict.get k style_dict with
      | Some v => Some v
      | None =>
          match (if ticks then Dict.get k tick_dict else None) with
          | Some v => Some v
          | None =>
              match Dict.get k fd with
              | Some v => Some v
              | None =>
                  if String.eqb "figure.figsize" k then Some (VTuple x y)
                  else Dict.get k cd
              end
          end
      end.
Proof.
  intros Hm.
  apply style_rcdict_inv in Hm as (rc & sd & Hrc & Hsd & ->).
  apply set_context_inv in Hrc as (s & cd & x & y & fd & Hs & Hcd & Hx & Hy & Hfd & ->).
  exists s, cd, x, y, fd, sd. repeat (split; [assumption|]).
  intros k.
  assert (Hfont : NoDup (Dict.keys fd)).
  { rewrite (scaled_keys _ _ _ Hfd). exact base_font_keys. }
  rewrite DictFacts.get_update_nodup by (rewrite Hsd; exact style_keys_nodup).
  destruct (Dict.get k sd); [reflexivity|].
  destruct ticks.
  - rewrite DictFacts.get_update_nodup by exact tick_dict_keys.
    destruct (Dict.get k tick_dict); [reflexivity|].
    rewrite DictFacts.get_update_nodup, DictFacts.get_set by exact Hfont.
    reflexivity.
  - rewrite DictFacts.get_update_nodup, DictFacts.get_set by exact Hfont.
    reflexivity.
Qed.

(** The tick override and the theme's style share no key: applying them
    in either order gives the same entries. *)
Lemma tick_style_commute (rcdict style_dict : Dict.t pyval) (k : string) :
  Dict.keys style_dict = style_keys ->
  Dict.get k (Dict.update (Dict.update rcdict tick_dict) style_dict)
  = Dict.get k (Dict.update (Dict.update rcdict style_dict) tick_dict).
Proof.
  intros Hsd.
  rewrite !DictFacts.get_update_nodup
    by (try rewrite Hsd; auto using style_keys_nodup, tick_dict_keys).
  destruct (Dict.get k style_dict) eqn:Hs; [|reflexivity].
  rewrite DictFacts.get_None; [reflexivity|].
  intros Hk. apply tick_keys_not_style in Hk. apply Hk.
  rewrite <- Hsd. apply list_elem_of_In.
  apply DictFacts.get_Some_elem, list_elem_of_In in Hs.
  exact (in_map fst _ _ Hs).
Qed.

(** ** The sink *)

Lemma set_codes_rcParams (to_rgb : color -> result rgb)
    (pairs : list (string * color)) (m : mpl) :
  rcParams (snd (set_codes to_rgb pairs m)) = rcParams m.
Proof.
  revert m. induction pairs as [|[code c] pairs IH]; intros m; simpl.
  - reflexivity.
  - destruct (to_rgb c); [rewrite IH|]; reflexivity.
Qed.

Lemma set_codes_rcParamsDefault (to_rgb : color -> result rgb)
    (pairs : list (string * color)) (m : mpl) :
  rcParamsDefault (snd (set_codes to_rgb pairs m)) = rcParamsDefault m.
Proof.
  revert m. induction pairs as [|[code c] pairs IH]; intros m; simpl.
  - reflexivity.
  - destruct (to_rgb c); [rewrite IH|]; reflexivity.
Qed.

(** [style] merges the mapping of [style_rcdict] into [rcParams] and adds
    the colour cycle, whatever the colour converter does afterwards. *)
Lemma style_hands_rcdict (list_of_set : list string -> list string)
    (to_rgb : color -> result rgb) (fs : files) (theme : option string)
    (c : string) (grid ticks spines : bool) (fscale : num) (m : mpl)
    (rc : Dict.t pyval) :
  style_rcdict list_of_set fs theme c grid ticks spines fscale = Ok rc ->
  exists clist,
    rcParams
      (snd (style list_of_set to_rgb fs theme c grid ticks spines fscale m))
    = Dict.set "axes.prop_cycle" (VCycler clist)
        (Dict.update (rcParams m) rc).
Proof.
  unfold style_rcdict, style. intros H.
  apply bind_Ok_inv in H as (rcdict & -> & H).
  apply bind_Ok_inv in H as (theme' & -> & H).
  apply bind_Ok_inv in H as ([rc' clist] & Hst & H). injection H as <-.
  exists clist. unfold set_style. rewrite Hst.
  rewrite set_codes_rcParams. reflexivity.
Qed.

(** ** The theme parser *)

Lemma foldM_invariant {A S : Type} (f : S -> A -> result S) (P : S -> Prop)
    (l : list A) (s : S) :
  P s ->
  (forall s x, x ∈ l -> P s -> exists s', f s x = Ok s' /\ P s') ->
  exists s', foldM f l s = Ok s' /\ P s'.
Proof.
  revert s. induction l as [|x l IH]; intros s Hs Hstep.
  - exists s. split; [reflexivity | exact Hs].
  - destruct (Hstep s x) as (s1 & Hf & Hs1); [left | exact Hs |].
    simpl. rewrite Hf, bind_Ok. apply IH; [exact Hs1|].
    intros s2 y Hy. apply Hstep. right. exact Hy.
Qed.

Lemma foldM_app {A S : Type} (f : S -> A -> result S) (l1 l2 : list A)
    (s : S) :
  foldM f (l1 ++ l2)%list s = s' ← foldM f l1 s; foldM f l2 s'.
Proof.
  revert s. induction l1 as [|x l1 IH]; intros s; simpl; [reflexivity|].
  destruct (f s x) as [s1|e]; simpl; [apply IH | reflexivity].
Qed.

(** A syntax variable the line does not contain stays where it is through
    one step of the list iteration. *)
Lemma scan_syntax_at_keeps (line : string) (vars : list string) (i p : nat)
    (marker : string) :
  vars !! p = Some marker ->
  Str.contains marker (Str.strip line) = false ->
  exists vars',
    scan_syntax_at line vars i = Ok vars' /\ vars' !! p = Some marker.
Proof.
  intros Hp Hno. unfold scan_syntax_at.
  destruct (vars !! i) as [c|] eqn:Hi; [|eauto].
  destruct (Str.contains c (Str.strip line)) eqn:Hc; [|eauto].
  destruct (StrFacts.index_elem c vars) as (j & Hidx & Hj).
  { apply list_elem_of_lookup. eauto. }
  rewrite Hidx, bind_Ok. eexists. split; [reflexivity|].
  rewrite list_lookup_insert_ne; [exact Hp|].
  intros ->. rewrite Hp in Hj. injection Hj as ->. congruence.
Qed.

Lemma scan_line_keeps (line : string) (st : Dict.t string * list string)
    (p : nat) (marker : string) :
  snd st !! p = Some marker ->
  Str.contains marker (Str.strip line) = false ->
  exists st', scan_line st line = Ok st' /\ snd st' !! p = Some marker.
Proof.
  intros Hp Hno. unfold scan_line, scan_syntax.
  destruct (foldM_invariant (scan_syntax_at line)
              (fun vars => vars !! p = Some marker)
              (seq 0 (length (snd st))) (snd st) Hp) as (vars & -> & Hvars).
  { intros vars i _ Hv. exact (scan_syntax_at_keeps line vars i p marker Hv Hno). }
  rewrite bind_Ok. eexists. split; [reflexivity | exact Hvars].
Qed.

(** What [get_theme_style] returns for a theme file that can be read: the
    colour list is the 14 accent colours, then the enumeration of the set
    of the syntax variables as the scan left them. *)
Lemma get_theme_style_file (list_of_set : list string -> list string)
    (fs : files) (theme content : string) (st : Dict.t string * list string) :
  theme <> "default" ->
  styles_dir fs (theme +:+ ".less") = Text content ->
  foldM scan_line (Str.readlines content)
    (fst get_default_jtstyle, syntaxVars) = Ok st ->
  get_theme_style list_of_set fs theme
  = Ok (fst st, (get_color_list ++ list_of_set (snd st))%list).
Proof.
  intros Hth Hfile Hscan. unfold get_theme_style.
  apply String.eqb_neq in Hth. simpl. rewrite Hth, Hfile. simpl open.
  rewrite bind_Ok. simpl in Hscan. rewrite Hscan. reflexivity.
Qed.

(** C9: when a syntax marker occurs on no line of the theme file, the
    colour list [get_theme_style] returns has the marker string itself as
    an entry. *)
Theorem get_theme_style_keeps_unmatched_marker
    (list_of_set : list string -> list string) (fs : files)
    (theme content marker : string) :
  set_listing list_of_set ->
  theme <> "default" ->
  styles_dir fs (theme +:+ ".less") = Text content ->
  marker ∈ syntaxVars ->
  (forall line, line ∈ Str.readlines content ->
                Str.contains marker line = false) ->
  exists styleMap clist,
    get_theme_style list_of_set fs theme = Ok (styleMap, clist) /\
    marker ∈ clist.
Proof.
  intros Hset Hth Hfile Hm Hno.
  apply list_elem_of_lookup in Hm as [p Hp].
  destruct (foldM_invariant scan_line
              (fun st => snd st !! p = Some marker)
              (Str.readlines content)
              (fst get_default_jtstyle, syntaxVars) Hp) as (st & Hscan & Hst).
  { intros st line Hline Hkeep. apply scan_line_keeps; [exact Hkeep|].
    destruct (Str.contains marker (Str.strip line)) eqn:Hc; [|reflexivity].
    apply StrFacts.contains_strip in Hc. rewrite (Hno line Hline) in Hc.
    discriminate. }
  exists (fst st), (get_color_list ++ list_of_set (snd st))%list.
  split; [exact (get_theme_style_file _ fs theme content st Hth Hfile Hscan)|].
  apply elem_of_app. right. apply (Hset (snd st)).
  apply list_elem_of_lookup. eauto.
Qed.

(** ** The lines of a theme file *)

Module LineFacts.

#[local] Arguments String.append : simpl nomatch.
#[local] Arguments Ascii.eqb : simpl never.

Lemma hex_color_inv (v : string) :
  hex_color v = true ->
  exists d1 d2 d3 d4 d5 d6,
    v = String "#" (String d1 (String d2 (String d3 (String d4 (String d5
          (String d6 EmptyString)))))) /\
    Forall (fun d => is_hex_digit d = true) [d1; d2; d3; d4; d5; d6].
Proof.
  unfold hex_color. destruct v as [|c v]; [discriminate|].
  destruct (Ascii.eqb_spec c "#") as [->|Hne].
  2:{ destruct c as [[] [] [] [] [] [] [] []]; try discriminate; congruence. }
  intros H. apply andb_prop in H as [Hlen Hall].
  apply Nat.eqb_eq in Hlen.
  do 6 (destruct v as [|? v]; [discriminate|]).
  destruct v; [|discriminate].
  simpl in Hall. repeat (apply andb_prop in Hall as [? Hall]).
  do 6 eexists. split; [reflexivity|]. repeat constructor; assumption.
Qed.

Lemma hex_digit_chars (d : ascii) :
  is_hex_digit d = true ->
  Ascii.eqb ":" d = false /\ Ascii.eqb ";" d = false /\
  Ascii.eqb "#" d = false /\ Ascii.eqb Str.nl d = false.
Proof.
  destruct d as [[] [] [] [] [] [] [] []]; try discriminate; intros _;
    repeat split; reflexivity.
Qed.

(** The characters a valid value is free of, and its shape. *)
Lemma hex_color_chars (v : string) :
  hex_color v = true ->
  String.length v = 7%nat /\
  has_char ":" v = false /\ has_char ";" v = false /\
  has_char Str.nl v = false /\
  exists r, v = String "#" r /\ has_char "#" r = false.
Proof.
  intros H. apply hex_color_inv in H as (d1 & d2 & d3 & d4 & d5 & d6 & -> & Hd).
  repeat (apply Forall_cons in Hd as [[? [? [? ?]]]%hex_digit_chars Hd]).
  split; [reflexivity|].
  repeat split; try (eexists; split; [reflexivity|]);
    cbn [has_char]; repeat match goal with H : _ = false |- _ => rewrite H; clear H end;
    reflexivity.
Qed.

Lemma marker_cases (P : string -> Prop) :
  Forall P markers -> forall m, m ∈ markers -> P m.
Proof. intros H m Hm. exact (proj1 (Forall_forall P markers) H m Hm). Qed.

Lemma markers_not_hex (m : string) : m ∈ markers -> hex_color m = false.
Proof. revert m. apply marker_cases. repeat constructor. Qed.

(** The hex code of a line that ends in [: <value>;]. *)
Lemma get_hex_code_shape (a sp v w : string) :
  has_char ":" (sp +:+ v +:+ ";" +:+ w) = false ->
  has_char ";" (sp +:+ v) = false ->
  String.length v = 7%nat ->
  get_hex_code (a +:+ ":" +:+ sp +:+ v +:+ ";" +:+ w) = v.
Proof.
  intros Hcolon Hsemi Hlen. unfold get_hex_code.
  change (a +:+ ":" +:+ sp +:+ v +:+ ";" +:+ w)
    with (a +:+ String ":" (sp +:+ v +:+ ";" +:+ w)).
  rewrite StrFacts.split_append, (StrFacts.split_no_sep ":" _ Hcolon).
  rewrite last_snoc. simpl default.
  rewrite <- (StrFacts.append_assoc sp v).
  change ((sp +:+ v) +:+ ";" +:+ w) with ((sp +:+ v) +:+ String ";" w).
  rewrite StrFacts.split_append, (StrFacts.split_no_sep ";" _ Hsemi).
  simpl. apply StrFacts.suffix_append. exact Hlen.
Qed.

(** The hex code of a line that declares a valid value is that value. *)
Lemma declares_hex_code (l v : string) :
  hex_color v = true -> declares l v -> get_hex_code l = v.
Proof.
  intros Hv (a & u & w & -> & Hcolon & Hsemi).
  destruct (hex_color_chars v Hv) as (Hlen & _).
  apply get_hex_code_shape; assumption.
Qed.

End LineFacts.

(** ** The two inner loops on one line *)

Lemma set_middle {V : Type} (k : string) (v a : V) (pre suf : Dict.t V) :
  k ∉ Dict.keys pre ->
  Dict.set k v (pre ++ (k, a) :: suf)%list = (pre ++ (k, v) :: suf)%list.
Proof.
  induction pre as [|[k' v'] pre IH]; simpl; intros H.
  - rewrite String.eqb_refl. reflexivity.
  - destruct (String.eqb_spec k' k) as [->|_].
    + exfalso. apply H. left.
    + rewrite IH; [reflexivity|]. intros Hin. apply H. right. exact Hin.
Qed.

(** The first loop rewrites the entries whose key is in the line and
    leaves the others. *)
Lemma scan_style_map (line : string) (sm : Dict.t string) :
  NoDup (Dict.keys sm) ->
  scan_style line sm =
  map (fun kv => (fst kv,
                  if Str.contains (fst kv) (Str.strip line)
                  then get_hex_code line else snd kv)) sm.
Proof.
  unfold scan_style.
  set (g := fun kv : string * string =>
              (fst kv, if Str.contains (fst kv) (Str.strip line)
                       then get_hex_code line else snd kv)).
  set (step := fun (sm : Dict.t string) (k : string) =>
                 if Str.contains k (Str.strip line)
                 then Dict.set k (get_hex_code line) sm else sm).
  enough (H : forall suf pre,
            NoDup (Dict.keys (pre ++ suf)%list) ->
            fold_left step (Dict.keys suf) (pre ++ suf)%list
            = (pre ++ map g suf)%list)
    by (intros Hnd; exact (H sm [] Hnd)).
  induction suf as [|[k a] suf IH]; intros pre Hnd.
  - reflexivity.
  - assert (Hk : k ∉ Dict.keys pre).
    { unfold Dict.keys in Hnd. rewrite map_app in Hnd.
      apply NoDup_app in Hnd as (_ & Hnd & _). intros Hin.
      apply (Hnd k Hin). left. }
    assert (Hstep : step (pre ++ (k, a) :: suf)%list k
                    = ((pre ++ [g (k, a)]) ++ suf)%list).
    { unfold step, g. simpl. rewrite <- app_assoc. simpl.
      destruct (Str.contains k (Str.strip line)); [|reflexivity].
      apply set_middle. exact Hk. }
    simpl. rewrite Hstep, IH, <- app_assoc; [reflexivity|].
    unfold Dict.keys in *. rewrite !map_app in *. simpl in *.
    rewrite <- app_assoc. exact Hnd.
Qed.

Lemma get_map_values {V : Type} (f : string -> V -> V) (k : string)
    (d : Dict.t V) :
  Dict.get k (map (fun kv => (fst kv, f (fst kv) (snd kv))) d)
  = f k <$> Dict.get k d.
Proof.
  induction d as [|[k' v'] d IH]; simpl; [reflexivity|].
  destruct (String.eqb_spec k' k) as [->|_]; [reflexivity | exact IH].
Qed.

Lemma keys_map_values {V : Type} (f : string -> V -> V) (d : Dict.t V) :
  Dict.keys (map (fun kv => (fst kv, f (fst kv) (snd kv))) d) = Dict.keys d.
Proof. unfold Dict.keys. rewrite map_map. reflexivity. Qed.

(** ** The scan of a theme file that gives twelve values *)

Lemma foldM_seq_invariant {S : Type} (f : S -> nat -> result S)
    (J : nat -> S -> Prop) (k n : nat) (s : S) :
  J n s ->
  (forall i s, (n <= i < n + k)%nat -> J i s ->
     exists s', f s i = Ok s' /\ J (Datatypes.S i) s') ->
  exists s', foldM f (seq n k) s = Ok s' /\ J (n + k)%nat s'.
Proof.
  revert n s. induction k as [|k IH]; intros n s Hs Hstep.
  - exists s. rewrite Nat.add_0_r. split; [reflexivity | exact Hs].
  - destruct (Hstep n s) as (s1 & Hf & Hs1); [lia | exact Hs |].
    destruct (IH (Datatypes.S n) s1 Hs1) as (s2 & Hfold & Hs2).
    { intros i s' Hi. apply Hstep. lia. }
    exists s2. simpl. rewrite Hf, bind_Ok.
    replace (n + Datatypes.S k)%nat with (Datatypes.S n + k)%nat by lia.
    split; [exact Hfold | exact Hs2].
Qed.

Section Scan.

Variable values : list string.
Hypothesis values_length : length values = 12%nat.
Hypothesis values_hex : Forall (fun v => hex_color v = true) values.
Hypothesis values_nodup : NoDup values.

Lemma slot_marker (i : nat) (k d : string) :
  fst get_default_jtstyle !! i = Some (k, d) -> markers !! i = Some k.
Proof.
  do 5 (destruct i as [|i]; [intros [= <- <-]; reflexivity|]). discriminate.
Qed.

Lemma syntax_marker (j : nat) (m : string) :
  syntaxVars !! j = Some m -> markers !! (5 + j)%nat = Some m.
Proof. intros H. exact H. Qed.

Lemma value_hex (i : nat) (v : string) :
  values !! i = Some v -> hex_color v = true.
Proof.
  intros H. exact (proj1 (Forall_lookup _ values) values_hex i v H).
Qed.

Lemma theme_inv_init :
  theme_inv values [] (fst get_default_jtstyle, syntaxVars).
Proof.
  split; [reflexivity|]. split; [|split; [reflexivity|]].
  - intros i k d v Hi _. simpl fst in *.
    do 5 (destruct i as [|i]; [injection Hi as <- <-; reflexivity|]).
    discriminate.
  - intros j m v Hj _. exact Hj.
Qed.

Lemma slot_keys_nodup : NoDup slot_keys.
Proof. apply (bool_decide_unpack _). vm_compute. reflexivity. Qed.

(** The syntax variable and the value of place [j], for [j] below 7. *)
Lemma syntax_entry (j : nat) :
  (j < 7)%nat ->
  exists m v, syntaxVars !! j = Some m /\ values !! (5 + j)%nat = Some v.
Proof.
  intros Hj.
  destruct (lookup_lt_is_Some_2 syntaxVars j) as [m Hm]; [simpl; lia|].
  destruct (lookup_lt_is_Some_2 values (5 + j)) as [v Hv]; [lia|].
  eauto.
Qed.

(** What two places of the list of syntax variables hold differs: each
    holds its marker or its value. *)
Lemma syntax_entries_differ (i k : nat) (mi vi mk vk x : string) :
  syntaxVars !! i = Some mi -> values !! (5 + i)%nat = Some vi ->
  syntaxVars !! k = Some mk -> values !! (5 + k)%nat = Some vk ->
  x = mi \/ x = vi -> x = mk \/ x = vk -> i = k.
Proof.
  intros Hmi Hvi Hmk Hvk Hi Hk.
  assert (Hhm : forall j m, syntaxVars !! j = Some m -> hex_color m = false).
  { intros j m Hm. apply LineFacts.markers_not_hex.
    apply list_elem_of_lookup. exists (5 + j)%nat. exact Hm. }
  pose proof (value_hex _ _ Hvi) as Hhvi.
  pose proof (value_hex _ _ Hvk) as Hhvk.
  pose proof (Hhm _ _ Hmi) as Hhmi. pose proof (Hhm _ _ Hmk) as Hhmk.
  destruct Hi as [->| ->]; destruct Hk as [Hk|Hk].
  - subst mk.
    assert (Hnd : NoDup syntaxVars)
      by (apply (bool_decide_unpack _); vm_compute; reflexivity).
    exact (NoDup_lookup syntaxVars i k mi Hnd Hmi Hmk).
  - subst vk. congruence.
  - subst mk. congruence.
  - subst vk.
    pose proof (NoDup_lookup values _ _ vi values_nodup Hvi Hvk). lia.
Qed.

(** The first loop on a line of the file: a slot whose key is on the line
    takes its value. *)
Lemma scan_style_agrees (past : list string) (sm : Dict.t string)
    (l : string) :
  Dict.keys sm = slot_keys ->
  (forall i k d v,
     fst get_default_jtstyle !! i = Some (k, d) -> values !! i = Some v ->
     Dict.get k sm = Some (if on_lines k past then v else d)) ->
  theme_file_line values l ->
  Dict.keys (scan_style l sm) = slot_keys /\
  (forall i k d v,
     fst get_default_jtstyle !! i = Some (k, d) -> values !! i = Some v ->
     Dict.get k (scan_style l sm)
     = Some (if on_lines k (l :: past) then v else d)).
Proof.
  intros Hkeys Hslots [Hmark _].
  rewrite scan_style_map by (rewrite Hkeys; exact slot_keys_nodup).
  split.
  - rewrite (keys_map_values
               (fun k a => if Str.contains k (Str.strip l)
                           then get_hex_code l else a)).
    exact Hkeys.
  - intros i k d v Hk Hv.
    rewrite (get_map_values
               (fun k a => if Str.contains k (Str.strip l)
                           then get_hex_code l else a)).
    rewrite (Hslots i k d v Hk Hv). cbn [fmap option_fmap option_map].
    cbn [on_lines existsb]. fold (on_lines k past). unfold on_line at 1.
    destruct (Str.contains k (Str.strip l)) eqn:Hc; [|reflexivity].
    cbn [orb].
    rewrite (LineFacts.declares_hex_code l v (value_hex i v Hv)
               (Hmark i k v (slot_marker i k d Hk) Hv Hc)).
    reflexivity.
Qed.

(** The second loop on a line of the file: a syntax variable found on the
    line, as a marker or as the value that replaced it, ends as its value,
    and the others stay. *)
Lemma scan_syntax_agrees (past vars : list string) (l : string) :
  length vars = 7%nat ->
  (forall j m v,
     syntaxVars !! j = Some m -> values !! (5 + j)%nat = Some v ->
     vars !! j = Some (if on_lines m past then v else m)) ->
  theme_file_line values l ->
  exists vars',
    scan_syntax l vars = Ok vars' /\ length vars' = 7%nat /\
    (forall j m v,
       syntaxVars !! j = Some m -> values !! (5 + j)%nat = Some v ->
       vars' !! j = Some (if on_lines m (l :: past) then v else m)).
Proof.
  intros Hlen Hvars [Hmark Hval]. unfold scan_syntax. rewrite Hlen.
  set (J := fun (n : nat) (vs : list string) =>
         length vs = 7%nat /\
         forall j m v,
           syntaxVars !! j = Some m -> values !! (5 + j)%nat = Some v ->
           vs !! j = Some (if (j <? n)%nat && on_line m l || on_lines m past
                           then v else m)).
  destruct (foldM_seq_invariant (scan_syntax_at l) J 7 0 vars)
    as (vars' & Hfold & Hlen' & Hvars').
  - split; [exact Hlen|]. intros j m v Hm Hv.
    rewrite (Hvars j m v Hm Hv). reflexivity.
  - intros i vs Hi [Hvl Hvs].
    destruct (syntax_entry i) as (mi & vi & Hmi & Hvi); [lia|].
    pose proof (Hvs i mi vi Hmi Hvi) as Hci.
    rewrite Nat.ltb_irrefl in Hci. cbn [andb orb] in Hci.
    unfold scan_syntax_at. rewrite Hci.
    set (c := if on_lines mi past then vi else mi) in *.
    destruct (Str.contains c (Str.strip l)) eqn:Hc.
    + assert (Hcode : get_hex_code l = vi).
      { apply LineFacts.declares_hex_code; [exact (value_hex _ _ Hvi)|].
        subst c. destruct (on_lines mi past).
        - apply Hval; [|exact Hc]. apply list_elem_of_lookup. exists i.
          rewrite lookup_drop. exact Hvi.
        - exact (Hmark _ mi vi (syntax_marker i mi Hmi) Hvi Hc). }
      assert (Hidx : Str.index c vs = Ok i).
      { apply StrFacts.index_first; [exact Hci|].
        intros k y Hk Hy ->.
        destruct (syntax_entry k) as (mk & vk & Hmk & Hvk); [lia|].
        pose proof (Hvs k mk vk Hmk Hvk) as Hy'. rewrite Hy in Hy'.
        injection Hy' as Hy'.
        enough (i = k) by lia.
        apply (syntax_entries_differ i k mi vi mk vk c Hmi Hvi Hmk Hvk).
        - subst c. destruct (on_lines mi past); auto.
        - rewrite Hy'. destruct (_ || _); auto. }
      rewrite Hidx, bind_Ok, Hcode. eexists. split; [reflexivity|].
      split; [rewrite length_insert; exact Hvl|].
      intros j m v Hm Hv. destruct (decide (j = i)) as [->|Hne].
      * rewrite list_lookup_insert_eq by lia.
        rewrite Hmi in Hm. injection Hm as <-.
        rewrite Hvi in Hv. injection Hv as <-.
        rewrite (proj2 (Nat.ltb_lt i (Datatypes.S i))) by lia. cbn [andb].
        subst c. destruct (on_lines mi past) eqn:Hp.
        -- rewrite orb_true_r. reflexivity.
        -- unfold on_line. rewrite Hc. reflexivity.
      * rewrite list_lookup_insert_ne by congruence.
        rewrite (Hvs j m v Hm Hv).
        replace (j <? Datatypes.S i)%nat with (j <? i)%nat; [reflexivity|].
        destruct (Nat.ltb_spec j i), (Nat.ltb_spec j (Datatypes.S i));
          (reflexivity || lia).
    + eexists. split; [reflexivity|]. split; [exact Hvl|].
      intros j m v Hm Hv. destruct (decide (j = i)) as [->|Hne].
      * rewrite Hmi in Hm. injection Hm as <-.
        rewrite Hvi in Hv. injection Hv as <-.
        rewrite Hci.
        rewrite (proj2 (Nat.ltb_lt i (Datatypes.S i))) by lia. cbn [andb].
        subst c. destruct (on_lines mi past) eqn:Hp.
        -- rewrite orb_true_r. reflexivity.
        -- unfold on_line. rewrite Hc. reflexivity.
      * rewrite (Hvs j m v Hm Hv).
        replace (j <? Datatypes.S i)%nat with (j <? i)%nat; [reflexivity|].
        destruct (Nat.ltb_spec j i), (Nat.ltb_spec j (Datatypes.S i));
          (reflexivity || lia).
  - exists vars'. split; [exact Hfold|]. split; [exact Hlen'|].
    intros j m v Hm Hv. rewrite (Hvars' j m v Hm Hv).
    pose proof (lookup_lt_Some _ _ _ Hm) as Hj. simpl in Hj.
    rewrite (proj2 (Nat.ltb_lt j (0 + 7))) by lia. reflexivity.
Qed.

(** A line of the file takes the scan from the state after [past] to the
    state after [l :: past]. *)
Lemma scan_line_agrees (past : list string)
    (st : Dict.t string * list string) (l : string) :
  theme_inv values past st -> theme_file_line values l ->
  exists st', scan_line st l = Ok st' /\ theme_inv values (l :: past) st'.
Proof.
  intros (Hkeys & Hslots & Hlen & Hvars) Hl.
  destruct (scan_style_agrees past (fst st) l Hkeys Hslots Hl)
    as [Hkeys' Hslots'].
  destruct (scan_syntax_agrees past (snd st) l Hlen Hvars Hl)
    as (vars' & Hscan & Hlen' & Hvars').
  unfold scan_line. rewrite Hscan, bind_Ok.
  eexists. split; [reflexivity|]. repeat split; assumption.
Qed.

(** The scan of the lines of the file returns, in the state after all of
    them. *)
Lemma scan_lines_agree (lines past : list string)
    (st : Dict.t string * list string) :
  theme_inv values past st ->
  Forall (theme_file_line values) lines ->
  exists st',
    foldM scan_line lines st = Ok st' /\
    theme_inv values (rev lines ++ past)%list st'.
Proof.
  intros Hinv Hlines. revert past st Hinv.
  induction Hlines as [|l lines Hl _ IH]; intros past st Hinv.
  - exists st. split; [reflexivity | exact Hinv].
  - destruct (scan_line_agrees past st l Hinv Hl) as (st1 & Hst1 & Hinv1).
    destruct (IH (l :: past) st1 Hinv1) as (st2 & Hst2 & Hinv2).
    exists st2. split; [simpl; rewrite Hst1, bind_Ok; exact Hst2|].
    simpl rev. rewrite <- app_assoc. exact Hinv2.
Qed.

End Scan.

Lemma on_lines_rev (x : string) (lines : list string) :
  on_lines x (rev lines ++ [])%list = on_lines x lines.
Proof.
  rewrite app_nil_r. unfold on_lines.
  destruct (existsb (on_line x) lines) eqn:H.
  - apply existsb_exists in H as (l & Hin & Hl).
    apply existsb_exists. exists l. split; [|exact Hl].
    apply in_rev. rewrite rev_involutive. exact Hin.
  - destruct (existsb (on_line x) (rev lines)) eqn:H'; [|reflexivity].
    apply existsb_exists in H' as (l & Hin & Hl).
    apply in_rev in Hin.
    assert (existsb (on_line x) lines = true)
      by (apply existsb_exists; eauto).
    congruence.
Qed.


Lemma remove_dups_listing : set_listing remove_dups.
Proof.
  intros l. split; [apply NoDup_remove_dups|].
  intros x. apply elem_of_remove_dups.
Qed.

(** The two halves of [theme_file_line] on a concrete line: the markers
    and the syntax values are tried one by one, and the one found on the
    line is declared with the parts [a], [u] and [w] of the line. *)
Ltac line_declares a u w :=
  first [ discriminate
        | exists a, u, w; split; [reflexivity|]; split; reflexivity ].

Ltac theme_file_line_of a u w :=
  split;
  [ intros i m v Hm Hv Hon;
    do 12 (destruct i as [|i];
           [ vm_compute in Hm, Hv; injection Hm as <-; injection Hv as <-;
             vm_compute in Hon; line_declares a u w |]);
    discriminate Hm
  | intros v Hv Hon; apply list_elem_of_In in Hv; vm_compute in Hv;
    repeat (destruct Hv as [<-|Hv];
            [vm_compute in Hon; line_declares a u w|]);
    destruct Hv ].



Lemma get_theme_style_keeps_unmatched_marker_witness :
  exists styleMap clist,
    get_theme_style remove_dups example_files "sparse"
    = Ok (styleMap, clist) /\
    "@cm-atom" ∈ clist.
Proof.
  apply (get_theme_style_keeps_unmatched_marker remove_dups example_files
           "sparse" (String.concat EmptyString sparse_lines) "@cm-atom").
  - exact remove_dups_listing.
  - discriminate.
  - reflexivity.
  - left.
  - intros line Hl. apply list_elem_of_In in Hl. vm_compute in Hl.
    repeat (destruct Hl as [<-|Hl]; [reflexivity|]). destruct Hl.
Defined.

Example sparse_theme_colors :
  get_theme_style remove_dups example_files "sparse"
  = Ok ([ ("axisFace", "#282c34"); ("figureFace", "white");
          ("textColor", ".15"); ("edgeColor", ".8"); ("gridColor", ".8") ],
        (get_color_list ++
         [ "@cm-atom"; "#d19a66"; "@cm-property"; "@cm-attribute";
           "@cm-keyword"; "@cm-string"; "@cm-meta" ])%list).
Proof. vm_compute. reflexivity. Qed.

(** ** The model on concrete inputs *)

Example set_context_paper :
  set_context "paper" (Int 1) =
  Ok [ ("axes.linewidth", VNum (Float (1.4 * 0.8)));
       ("grid.linewidth", VNum (Float (1.4 * 0.8)));
       ("lines.linewidth", VNum (Float (1.5 * 0.8)));
       ("patch.linewidth", VNum (Float (0.2 * 0.8)));
       ("lines.markersize", VNum (Float (7 * 0.8)));
       ("lines.markeredgewidth", VNum (Float 0));
       ("xtick.major.width", VNum (Float 0.8));
       ("ytick.major.width", VNum (Float 0.8));
       ("xtick.minor.width", VNum (Float 0.4));
       ("ytick.minor.width", VNum (Float 0.4));
       ("xtick.major.pad", VNum (Float (7 * 0.8)));
       ("ytick.major.pad", VNum (Float (7 * 0.8)));
       ("xtick.major.size", VNum (Float 0));
       ("ytick.major.size", VNum (Float 0));
       ("xtick.minor.size", VNum (Float 0));
       ("ytick.minor.size", VNum (Float 0));
       ("figure.figsize", VTuple (Float (5.5 * 0.8)) (Float (4.5 * 0.8)));
       ("font.size", VNum (Int 11));
       ("axes.labelsize", VNum (Int 12));
       ("axes.titlesize", VNum (Int 12));
       ("xtick.labelsize", VNum (Float 10.5));
       ("ytick.labelsize", VNum (Float 10.5));
       ("legend.fontsize", VNum (Float 10.5)) ].
Proof. vm_compute. reflexivity. Qed.

Example set_context_huge_fscale :
  set_context "talk" (Int (2 ^ 1024)) = Raise OverflowError.
Proof. vm_compute. reflexivity. Qed.

Example get_hex_code_value :
  get_hex_code (theme_line "@cm-atom" "#d19a66") = "#d19a66".
Proof. reflexivity. Qed.

(** Without the [;] the slice takes the terminator in. *)
Example get_hex_code_no_semicolon :
  get_hex_code ("axisFace: #282c34" +:+ Str.eol)
  = "282c34" +:+ Str.eol.
Proof. reflexivity. Qed.

(** A marker met again on a later line takes what that line ends in. *)
Example slot_overwritten :
  scan_style "  background: @axisFace;"
    (scan_style (theme_line "axisFace" "#282c34") (fst get_default_jtstyle))
  = [ ("axisFace", "xisFace"); ("figureFace", "white");
      ("textColor", ".15"); ("edgeColor", ".8"); ("gridColor", ".8") ].
Proof. reflexivity. Qed.

Example infer_theme_marker :
  infer_theme
    {| theme_name_file := Text ("onedork" +:+ Str.eol);
       styles_dir := fun _ => Absent |}
  = Ok ("onedork" +:+ Str.eol).
Proof. reflexivity. Qed.

Example style_missing_theme_file :
  style_rcdict remove_dups example_files (Some "monokai") "notebook"
    true false true (Int 1)
  = Raise OSError.
Proof. vm_compute. reflexivity. Qed.

Example style_spines_off :
  (rc ← style_rcdict remove_dups example_files (Some "example") "notebook"
         true false false (Int 1);
   Ok (Dict.get "axes.edgecolor" rc, Dict.get "grid.color" rc))
  = Ok (Some (VStr "#4b5263"), Some (VStr "#4b5263")).
Proof. vm_compute. reflexivity. Qed.

Example figsize_aspect (m : mpl) :
  Dict.get "figure.figsize"
    (rcParams (snd (figsize (Int 10) (Int 5) (Int 2) m)))
  = Some (VTuple (Int 20) (Int 5)).
Proof.
  simpl. rewrite DictFacts.get_set, String.eqb_refl. reflexivity.
Qed.

(** * Further properties of the module *)

(** ** Dictionaries, continued *)

Lemma getitem_Ok {V : Type} (k : string) (d : Dict.t V) (v : V) :
  Dict.getitem k d = Ok v -> Dict.get k d = Some v.
Proof.
  unfold Dict.getitem. destruct (Dict.get k d); [|discriminate].
  intros [= ->]. reflexivity.
Qed.

Lemma keys_set {V : Type} (k : string) (v : V) (d : Dict.t V) :
  k ∈ Dict.keys d -> Dict.keys (Dict.set k v d) = Dict.keys d.
Proof.
  induction d as [|[k' v'] d IH]; simpl; intros H; [inversion H|].
  destruct (String.eqb_spec k' k) as [->|Hne]; [reflexivity|].
  simpl. f_equal. apply IH.
  apply elem_of_cons in H as [->|H]; [congruence | exact H].
Qed.

(** An update with keys the dictionary has keeps its keys. *)
Lemma keys_update_present {V : Type} (d e : Dict.t V) :
  (forall k, k ∈ Dict.keys e -> k ∈ Dict.keys d) ->
  Dict.keys (Dict.update d e) = Dict.keys d.
Proof.
  revert d. induction e as [|[k v] e IH]; intros d H; [reflexivity|].
  change (Dict.update d ((k, v) :: e)) with (Dict.update (Dict.set k v d) e).
  assert (Hk : k ∈ Dict.keys d) by (apply H; left).
  rewrite IH, (keys_set k v d Hk); [reflexivity|].
  intros k' Hk'. rewrite (keys_set k v d Hk). apply H. right. exact Hk'.
Qed.

Lemma context_keys_nodup : NoDup context_keys.
Proof. apply (bool_decide_unpack _). vm_compute. reflexivity. Qed.

Lemma all_keys_nodup : NoDup (context_keys ++ style_keys)%list.
Proof. apply (bool_decide_unpack _). vm_compute. reflexivity. Qed.

(** ** set_context, continued *)

Lemma int_to_float_cases (z : Z) :
  (exists f, int_to_float z = Ok f) \/ int_to_float z = Raise OverflowError.
Proof.
  unfold int_to_float.
  destruct (binary_normalize prec emax z 0 false); eauto.
Qed.

Lemma set_context_keys_eq (c : string) (fscale : num) (m : Dict.t pyval) :
  set_context c fscale = Ok m -> Dict.keys m = context_keys.
Proof.
  intros H.
  apply set_context_inv in H as (s & cd & x & y & fd & _ & Hcd & _ & _ & Hfd & ->).
  pose proof (scaled_keys _ _ _ Hcd) as Kcd.
  pose proof (scaled_keys _ _ _ Hfd) as Kfd.
  assert (Hfig : Dict.set "figure.figsize" (VTuple x y) cd
                 = (cd ++ [("figure.figsize", VTuple x y)])%list).
  { apply set_fresh. rewrite Kcd. apply (bool_decide_unpack _).
    vm_compute. reflexivity. }
  rewrite Hfig, update_fresh.
  - unfold Dict.keys in *. rewrite !map_app, Kcd, Kfd. reflexivity.
  - unfold Dict.keys in *. rewrite !map_app, Kcd, Kfd.
    exact context_keys_nodup.
Qed.

(** X1: for a known context and an [int] font scale too large for a
    [float], [set_context] raises [OverflowError]: the float entries of
    [base_font] cannot be multiplied by it. *)
Theorem set_context_overflow_raises (c : string) (z : Z) :
  c ∈ contexts -> int_to_float z = Raise OverflowError ->
  set_context c (Int z) = Raise OverflowError.
Proof. exact (set_context_overflow c z). Qed.

Lemma set_context_overflow_raises_witness :
  set_context "poster" (Int (2 ^ 1100)) = Raise OverflowError.
Proof.
  apply (set_context_overflow_raises "poster" (2 ^ 1100)).
  - unfold contexts. repeat constructor.
  - vm_compute. reflexivity.
Defined.

(** X2: [set_context] returns a mapping exactly when the context is one
    of the four and the font scale is a float or an int that converts to
    one. *)
Theorem set_context_returns_iff (c : string) (fscale : num) :
  (exists m, set_context c fscale = Ok m) <->
  (c ∈ contexts /\ convertible fscale).
Proof.
  split.
  - intros [m Hm]. split.
    + destruct (decide (c ∈ contexts)) as [Hc|Hc]; [exact Hc|].
      unfold set_context, Dict.getitem in Hm.
      rewrite (DictFacts.get_None c scaling_table Hc) in Hm. discriminate.
    + destruct fscale as [z|f]; [|exact I].
      destruct (int_to_float_cases z) as [Hz|Hz]; [exact Hz|].
      apply set_context_inv in Hm
        as (s & cd & x & y & fd & _ & _ & _ & _ & Hfd & _).
      destruct (scaled_get _ _ _ "legend.fontsize" (Float 10.5) Hfd eq_refl)
        as (w & Hw & _).
      rewrite (py_mul_overflow _ _ Hz) in Hw. discriminate.
  - intros [Hc Hf]. exact (set_context_ok c fscale Hc Hf).
Qed.

(** X3: whatever the context and the font scale, the mapping
    [set_context] returns has the same 23 keys: those of [base_context],
    then 'figure.figsize', then those of [base_font]. *)
Theorem set_context_keys (c : string) (fscale : num) (m : Dict.t pyval) :
  set_context c fscale = Ok m ->
  Dict.keys m = context_keys /\ length m = 23%nat.
Proof.
  intros H. pose proof (set_context_keys_eq c fscale m H) as Hk.
  split; [exact Hk|].
  rewrite <- (length_map fst m). fold (Dict.keys m). rewrite Hk. reflexivity.
Qed.

Lemma set_context_keys_witness :
  exists m, set_context "talk" (Float 2) = Ok m /\
            Dict.keys m = context_keys /\ length m = 23%nat.
Proof.
  eexists. split; [vm_compute; reflexivity|].
  apply (set_context_keys "talk" (Float 2)). vm_compute. reflexivity.
Defined.

(** ** figsize and reset, continued *)


(** The seven colour codes of [reset] go through the converter. *)
Lemma reset_codes (to_rgb : color -> result rgb) (m : mpl) :
  rgb_passthrough to_rgb ->
  set_codes to_rgb (zip (chars "bgrmyck") reset_colors) m =
  (Ok tt,
   with_code "k" (0, 0, 0)%float
     (with_code "c" (0, 0.75, 0.75)%float
        (with_code "y" (0.75, 0.75, 0)%float
           (with_code "m" (0.75, 0.75, 0)%float
              (with_code "r" (1, 0, 0)%float
                 (with_code "g" (0, 0.5, 0)%float
                    (with_code "b" (0, 0, 1)%float m))))))).
Proof.
  intros H. unfold reset_colors. simpl zip. cbn [set_codes].
  rewrite !H by reflexivity. reflexivity.
Qed.

(** X5: when the host converts RGB triples, [reset()] puts every entry of
    [rcParamsDefault] back into [rcParams], except that 'figure.facecolor'
    and 'axes.facecolor' become 'white'; an entry the defaults do not have
    stays as it was. *)
Theorem reset_restores_defaults (to_rgb : color -> result rgb) (m : mpl) :
  rgb_passthrough to_rgb ->
  NoDup (Dict.keys (rcParamsDefault m)) ->
  exists m',
    reset to_rgb m = (Ok tt, m') /\
    Dict.get "figure.facecolor" (rcParams m') = Some (VStr "white") /\
    Dict.get "axes.facecolor" (rcParams m') = Some (VStr "white") /\
    (forall k, k <> "figure.facecolor" -> k <> "axes.facecolor" ->
       Dict.get k (rcParams m') =
       match Dict.get k (rcParamsDefault m) with
       | Some v => Some v
       | None => Dict.get k (rcParams m)
       end) /\
    rcParamsDefault m' = rcParamsDefault m.
Proof.
  intros H Hnd. unfold reset. rewrite (reset_codes to_rgb m H).
  eexists. split; [reflexivity|].
  cbn [rcParams rcParamsDefault with_rcParams with_code].
  repeat split.
  - rewrite !DictFacts.get_set. reflexivity.
  - rewrite !DictFacts.get_set. reflexivity.
  - intros k Hf Ha. rewrite !DictFacts.get_set.
    destruct (String.eqb_spec "axes.facecolor" k); [congruence|].
    destruct (String.eqb_spec "figure.facecolor" k); [congruence|].
    apply DictFacts.get_update_nodup. exact Hnd.
Qed.

Lemma reset_restores_defaults_witness :
  exists m',
    reset example_to_rgb example_mpl = (Ok tt, m') /\
    Dict.get "figure.facecolor" (rcParams m') = Some (VStr "white") /\
    Dict.get "axes.facecolor" (rcParams m') = Some (VStr "white") /\
    (forall k, k <> "figure.facecolor" -> k <> "axes.facecolor" ->
       Dict.get k (rcParams m') =
       match Dict.get k (rcParamsDefault example_mpl) with
       | Some v => Some v
       | None => Dict.get k (rcParams example_mpl)
       end) /\
    rcParamsDefault m' = rcParamsDefault example_mpl.
Proof.
  apply (reset_restores_defaults example_to_rgb example_mpl).
  - intros r g b _ _ _. reflexivity.
  - apply (bool_decide_unpack _). vm_compute. reflexivity.
Defined.

(** X6: when the host converts RGB triples, [reset()] binds the seven
    colour codes in [colors] to the literal triples of the source and
    leaves every other code of [colors] as it was; the last of the seven,
    'k', is in [cache] with its triple on either host. *)
Theorem reset_short_codes (to_rgb : color -> result rgb) (m : mpl) :
  rgb_passthrough to_rgb ->
  exists m',
    reset to_rgb m = (Ok tt, m') /\
    Dict.get "b" (colors m') = Some (0, 0, 1)%float /\
    Dict.get "g" (colors m') = Some (0, 0.5, 0)%float /\
    Dict.get "r" (colors m') = Some (1, 0, 0)%float /\
    Dict.get "m" (colors m') = Some (0.75, 0.75, 0)%float /\
    Dict.get "y" (colors m') = Some (0.75, 0.75, 0)%float /\
    Dict.get "c" (colors m') = Some (0, 0.75, 0.75)%float /\
    Dict.get "k" (colors m') = Some (0, 0, 0)%float /\
    Dict.get "k" (cache m') = Some (0, 0, 0)%float /\
    (forall code, code ∉ short_codes ->
       Dict.get code (colors m') = Dict.get code (colors m)).
Proof.
  intros H. unfold reset. rewrite (reset_codes to_rgb m H).
  eexists. split; [reflexivity|].
  cbn [colors cache with_rcParams with_code].
  rewrite !DictFacts.get_set. cbn [String.eqb Ascii.eqb Bool.eqb].
  repeat (split; [reflexivity|]).
  intros code Hn. rewrite !DictFacts.get_set.
  repeat match goal with
    | |- context [String.eqb ?a code] =>
        destruct (String.eqb_spec a code) as [<-|_];
        [exfalso; apply Hn; apply list_elem_of_In; simpl; auto 10|]
    end.
  reflexivity.
Qed.

Lemma reset_short_codes_witness :
  exists m',
    reset example_to_rgb example_mpl = (Ok tt, m') /\
    Dict.get "b" (colors m') = Some (0, 0, 1)%float /\
    Dict.get "g" (colors m') = Some (0, 0.5, 0)%float /\
    Dict.get "r" (colors m') = Some (1, 0, 0)%float /\
    Dict.get "m" (colors m') = Some (0.75, 0.75, 0)%float /\
    Dict.get "y" (colors m') = Some (0.75, 0.75, 0)%float /\
    Dict.get "c" (colors m') = Some (0, 0.75, 0.75)%float /\
    Dict.get "k" (colors m') = Some (0, 0, 0)%float /\
    Dict.get "k" (cache m') = Some (0, 0, 0)%float /\
    (forall code, code ∉ short_codes ->
       Dict.get code (colors m') = Dict.get code (colors example_mpl)).
Proof.
  apply (reset_short_codes example_to_rgb example_mpl).
  intros r g b _ _ _. reflexivity.
Defined.

(** ** The theme parser, continued *)

Lemma scan_syntax_at_total (line : string) (vars : list string) (i : nat) :
  exists vars',
    scan_syntax_at line vars i = Ok vars' /\ length vars' = length vars.
Proof.
  unfold scan_syntax_at.
  destruct (vars !! i) as [c|] eqn:Hi; [|eauto].
  destruct (Str.contains c (Str.strip line)); [|eauto].
  destruct (StrFacts.index_elem c vars) as (j & -> & _).
  { apply list_elem_of_lookup. eauto. }
  rewrite bind_Ok. eexists. split; [reflexivity|]. apply length_insert.
Qed.

(** One line of any text: the scan goes on, the map keeps its keys and
    the list its length, and each slot either keeps its colour or takes
    the hex code of the line, as the line contains its key or not. *)
Lemma scan_line_total (st : Dict.t string * list string) (line : string) :
  Dict.keys (fst st) = slot_keys ->
  exists st',
    scan_line st line = Ok st' /\
    Dict.keys (fst st') = slot_keys /\
    length (snd st') = length (snd st) /\
    forall k,
      Dict.get k (fst st') =
      (fun a => if Str.contains k (Str.strip line)
                then get_hex_code line else a) <$> Dict.get k (fst st).
Proof.
  intros Hkeys. unfold scan_line, scan_syntax.
  destruct (foldM_invariant (scan_syntax_at line)
              (fun vars => length vars = length (snd st))
              (seq 0 (length (snd st))) (snd st) eq_refl)
    as (vars & -> & Hlen).
  { intros vars i _ Hv.
    destruct (scan_syntax_at_total line vars i) as (vars' & Hs & Hl).
    exists vars'. split; [exact Hs | congruence]. }
  rewrite bind_Ok. eexists. split; [reflexivity|]. simpl fst. simpl snd.
  rewrite scan_style_map by (rewrite Hkeys; exact slot_keys_nodup).
  split; [|split; [exact Hlen|]].
  - rewrite (keys_map_values
               (fun k a => if Str.contains k (Str.strip line)
                           then get_hex_code line else a)).
    exact Hkeys.
  - intros k.
    exact (get_map_values
             (fun k a => if Str.contains k (Str.strip line)
                         then get_hex_code line else a) k (fst st)).
Qed.

(** Any lines at all: the scan returns, with the five slots and seven
    syntax variables. *)
Lemma scan_lines_total (lines : list string)
    (st : Dict.t string * list string) :
  Dict.keys (fst st) = slot_keys ->
  exists st',
    foldM scan_line lines st = Ok st' /\
    Dict.keys (fst st') = slot_keys /\
    length (snd st') = length (snd st).
Proof.
  intros Hkeys.
  destruct (foldM_invariant scan_line
              (fun st' => Dict.keys (fst st') = slot_keys /\
                          length (snd st') = length (snd st))
              lines st (conj Hkeys eq_refl)) as (st' & Hst' & Hk & Hl).
  { intros st1 line _ [Hk Hl].
    destruct (scan_line_total st1 line Hk) as (st2 & Hs & Hk2 & Hl2 & _).
    exists st2. split; [exact Hs|]. split; [exact Hk2 | congruence]. }
  eauto.
Qed.

(** The two ways [get_theme_style] returns. *)
Lemma get_theme_style_inv (list_of_set : list string -> list string)
    (fs : files) (theme : string) (sm : Dict.t string) (clist : list string) :
  get_theme_style list_of_set fs theme = Ok (sm, clist) ->
  (theme = "default" /\ sm = fst get_default_jtstyle /\
   clist = get_color_list) \/
  (theme <> "default" /\
   exists content st,
     styles_dir fs (theme +:+ ".less") = Text content /\
     foldM scan_line (Str.readlines content)
       (fst get_default_jtstyle, syntaxVars) = Ok st /\
     sm = fst st /\
     clist = (get_color_list ++ list_of_set (snd st))%list).
Proof.
  unfold get_theme_style. simpl.
  destruct (String.eqb_spec theme "default") as [->|Hne].
  - intros [= <- <-]. left. auto.
  - intros H. right. split; [exact Hne|].
    apply bind_Ok_inv in H as (content & Hopen & H).
    apply bind_Ok_inv in H as (st & Hscan & H). injection H as <- <-.
    exists content, st. repeat split; auto.
    destruct (styles_dir fs (theme +:+ ".less")); try discriminate.
    injection Hopen as ->. reflexivity.
Qed.

Lemma get_theme_style_returns (list_of_set : list string -> list string)
    (fs : files) (theme content : string) :
  theme <> "default" ->
  styles_dir fs (theme +:+ ".less") = Text content ->
  exists sm clist,
    get_theme_style list_of_set fs theme = Ok (sm, clist) /\
    Dict.keys sm = slot_keys /\ (14 <= length clist)%nat.
Proof.
  intros Hth Hfile.
  destruct (scan_lines_total (Str.readlines content)
              (fst get_default_jtstyle, syntaxVars) eq_refl)
    as (st & Hscan & Hkeys & _).
  exists (fst st), (get_color_list ++ list_of_set (snd st))%list.
  split; [|split; [exact Hkeys|]].
  - exact (get_theme_style_file list_of_set fs theme content st Hth Hfile Hscan).
  - rewrite length_app. simpl. lia.
Qed.

(** X8: a theme file that can be read is never a parse error: whatever
    its text, [get_theme_style] returns, the colour map has the five
    slots and the colour list at least the 14 accent colours. *)
Theorem get_theme_style_total (list_of_set : list string -> list string)
    (fs : files) (theme content : string) :
  theme <> "default" ->
  styles_dir fs (theme +:+ ".less") = Text content ->
  exists sm clist,
    get_theme_style list_of_set fs theme = Ok (sm, clist) /\
    Dict.keys sm = slot_keys /\ (14 <= length clist)%nat.
Proof. exact (get_theme_style_returns list_of_set fs theme content). Qed.

Lemma get_theme_style_total_witness :
  exists sm clist,
    get_theme_style remove_dups example_files "sparse" = Ok (sm, clist) /\
    Dict.keys sm = slot_keys /\ (14 <= length clist)%nat.
Proof.
  apply (get_theme_style_total remove_dups example_files "sparse"
           (String.concat EmptyString sparse_lines)).
  - discriminate.
  - reflexivity.
Defined.

(** X9: the colour list [get_theme_style] returns is the 14 accent colours
    followed by at most seven entries, so its first seven entries are the
    same for every theme. *)
Theorem get_theme_style_color_list
    (list_of_set : list string -> list string) (fs : files)
    (theme : string) (sm : Dict.t string) (clist : list string) :
  set_listing list_of_set ->
  get_theme_style list_of_set fs theme = Ok (sm, clist) ->
  exists tail,
    clist = (get_color_list ++ tail)%list /\
    (length tail <= 7)%nat /\
    take 7 clist = take 7 get_color_list.
Proof.
  intros Hset H.
  apply get_theme_style_inv in H
    as [(_ & _ & ->)|(_ & content & st & _ & Hscan & _ & ->)].
  - exists []. rewrite app_nil_r. repeat split. simpl. lia.
  - exists (list_of_set (snd st)). split; [reflexivity|]. split; [|reflexivity].
    destruct (scan_lines_total (Str.readlines content)
                (fst get_default_jtstyle, syntaxVars) eq_refl)
      as (st' & Hscan' & _ & Hlen).
    rewrite Hscan in Hscan'. injection Hscan' as <-.
    destruct (Hset (snd st)) as [Hnd Hel].
    change 7%nat with (length syntaxVars). simpl snd in Hlen. rewrite <- Hlen.
    apply submseteq_length, NoDup_submseteq; [exact Hnd|].
    intros x Hx. apply Hel. exact Hx.
Qed.

Lemma get_theme_style_color_list_witness :
  exists tail,
    (get_color_list ++
     [ "@cm-atom"; "#d19a66"; "@cm-property"; "@cm-attribute";
       "@cm-keyword"; "@cm-string"; "@cm-meta" ])%list
    = (get_color_list ++ tail)%list /\
    (length tail <= 7)%nat /\
    take 7 (get_color_list ++
            [ "@cm-atom"; "#d19a66"; "@cm-property"; "@cm-attribute";
              "@cm-keyword"; "@cm-string"; "@cm-meta" ])%list
    = take 7 get_color_list.
Proof.
  apply (get_theme_style_color_list remove_dups example_files "sparse"
           [ ("axisFace", "#282c34"); ("figureFace", "white");
             ("textColor", ".15"); ("edgeColor", ".8"); ("gridColor", ".8") ]).
  - exact remove_dups_listing.
  - vm_compute. reflexivity.
Defined.

(** X10: a slot whose key occurs on no line of the theme file keeps its
    built-in colour. *)
Theorem unmatched_slot_keeps_default
    (list_of_set : list string -> list string) (fs : files)
    (theme content k d : string) :
  theme <> "default" ->
  styles_dir fs (theme +:+ ".less") = Text content ->
  Dict.get k (fst get_default_jtstyle) = Some d ->
  (forall line, line ∈ Str.readlines content ->
                Str.contains k line = false) ->
  exists sm clist,
    get_theme_style list_of_set fs theme = Ok (sm, clist) /\
    Dict.get k sm = Some d.
Proof.
  intros Hth Hfile Hk Hno.
  destruct (foldM_invariant scan_line
              (fun st => Dict.keys (fst st) = slot_keys /\
                         Dict.get k (fst st) = Some d)
              (Str.readlines content)
              (fst get_default_jtstyle, syntaxVars) (conj eq_refl Hk))
    as (st & Hscan & _ & Hget).
  { intros st line Hline [Hkeys Hget].
    destruct (scan_line_total st line Hkeys) as (st' & Hs & Hk' & _ & Hg).
    exists st'. split; [exact Hs|]. split; [exact Hk'|].
    rewrite Hg, Hget. simpl.
    destruct (Str.contains k (Str.strip line)) eqn:Hc; [|reflexivity].
    apply StrFacts.contains_strip in Hc. rewrite (Hno line Hline) in Hc.
    discriminate. }
  exists (fst st), (get_color_list ++ list_of_set (snd st))%list.
  split; [|exact Hget].
  exact (get_theme_style_file list_of_set fs theme content st Hth Hfile Hscan).
Qed.

Lemma unmatched_slot_keeps_default_witness :
  exists sm clist,
    get_theme_style remove_dups example_files "sparse" = Ok (sm, clist) /\
    Dict.get "gridColor" sm = Some ".8".
Proof.
  apply (unmatched_slot_keeps_default remove_dups example_files "sparse"
           (String.concat EmptyString sparse_lines) "gridColor" ".8").
  - discriminate.
  - reflexivity.
  - reflexivity.
  - intros line Hl. apply list_elem_of_In in Hl. vm_compute in Hl.
    repeat (destruct Hl as [<-|Hl]; [reflexivity|]). destruct Hl.
Defined.

(** X11: when the key of a slot occurs on several lines, the last of them
    decides: the slot holds the hex code of the last line that contains
    its key, whatever that line gives. *)
Theorem slot_last_line_wins
    (list_of_set : list string -> list string) (fs : files)
    (theme content k l : string) (pre post : list string) :
  theme <> "default" ->
  styles_dir fs (theme +:+ ".less") = Text content ->
  Str.readlines content = (pre ++ l :: post)%list ->
  k ∈ slot_keys ->
  Str.contains k (Str.strip l) = true ->
  (forall l', l' ∈ post -> Str.contains k (Str.strip l') = false) ->
  exists sm clist,
    get_theme_style list_of_set fs theme = Ok (sm, clist) /\
    Dict.get k sm = Some (get_hex_code l).
Proof.
  intros Hth Hfile Hlines Hk Hin Hpost.
  destruct (scan_lines_total pre (fst get_default_jtstyle, syntaxVars) eq_refl)
    as (st1 & Hs1 & Hk1 & _).
  destruct (scan_line_total st1 l Hk1) as (st2 & Hs2 & Hk2 & _ & Hg2).
  assert (Hget2 : Dict.get k (fst st2) = Some (get_hex_code l)).
  { rewrite Hg2, Hin.
    destruct (Dict.get k (fst st1)) as [a|] eqn:Ha; [reflexivity|].
    exfalso. rewrite <- Hk1 in Hk. revert Ha. clear -Hk.
    induction (fst st1) as [|[k' v'] d IH]; [inversion Hk|]. simpl in *.
    destruct (String.eqb_spec k' k) as [->|Hne]; [discriminate|].
    apply elem_of_cons in Hk as [->|Hk]; [congruence | auto]. }
  destruct (foldM_invariant scan_line
              (fun st => Dict.keys (fst st) = slot_keys /\
                         Dict.get k (fst st) = Some (get_hex_code l))
              post st2 (conj Hk2 Hget2)) as (st & Hscan & _ & Hget).
  { intros st l' Hl' [Hkeys Hget].
    destruct (scan_line_total st l' Hkeys) as (st' & Hs & Hk' & _ & Hg).
    exists st'. split; [exact Hs|]. split; [exact Hk'|].
    rewrite Hg, Hget. simpl. rewrite (Hpost l' Hl'). reflexivity. }
  exists (fst st), (get_color_list ++ list_of_set (snd st))%list.
  split; [|exact Hget].
  apply (get_theme_style_file list_of_set fs theme content st Hth Hfile).
  rewrite Hlines, foldM_app, Hs1, bind_Ok. simpl. rewrite Hs2, bind_Ok.
  exact Hscan.
Qed.

Lemma slot_last_line_wins_witness :
  exists sm clist,
    get_theme_style remove_dups extra_files "overwrite" = Ok (sm, clist) /\
    Dict.get "axisFace" sm = Some "xisFace".
Proof.
  apply (slot_last_line_wins remove_dups extra_files "overwrite"
           (String.concat EmptyString overwrite_lines) "axisFace"
           ("  background: @axisFace;" +:+ Str.eol)
           [theme_line "axisFace" "#282c34"] []).
  - discriminate.
  - reflexivity.
  - reflexivity.
  - left.
  - reflexivity.
  - intros l' Hl'. inversion Hl'.
Defined.

(** ** set_style and style, continued *)

(** What lines 111 to 148 of [set_style] return, in full. *)
Lemma set_style_rcdict_explicit (list_of_set : list string -> list string)
    (fs : files) (rcdict : Dict.t pyval) (theme : string)
    (grid ticks spines : bool) (m : Dict.t pyval) (clist : list string) :
  set_style_rcdict list_of_set fs rcdict theme grid ticks spines
  = Ok (m, clist) ->
  exists sm figureFace axisFace textColor edgeColor gridColor,
    get_theme_style list_of_set fs theme = Ok (sm, clist) /\
    Dict.get "figureFace" sm = Some figureFace /\
    Dict.get "axisFace" sm = Some axisFace /\
    Dict.get "textColor" sm = Some textColor /\
    Dict.get "edgeColor" sm = Some edgeColor /\
    Dict.get "gridColor" sm = Some gridColor /\
    m = Dict.update (if ticks then Dict.update rcdict tick_dict else rcdict)
          (theme_style_dict figureFace axisFace textColor
             (if negb spines then gridColor else edgeColor) gridColor grid).
Proof.
  unfold set_style_rcdict. intros H.
  apply bind_Ok_inv in H as ([sm clist'] & Hst & H).
  apply bind_Ok_inv in H as (figureFace & Hff%getitem_Ok & H).
  apply bind_Ok_inv in H as (axisFace & Haf%getitem_Ok & H).
  apply bind_Ok_inv in H as (textColor & Htc%getitem_Ok & H).
  apply bind_Ok_inv in H as (edgeColor & Hec%getitem_Ok & H).
  apply bind_Ok_inv in H as (gridColor & Hgc%getitem_Ok & H).
  injection H as <- <-.
  exists sm, figureFace, axisFace, textColor, edgeColor, gridColor.
  repeat split; assumption || reflexivity.
Qed.

(** [set_style] finds the five colours in any map with the five slots. *)
Lemma set_style_rcdict_ok (list_of_set : list string -> list string)
    (fs : files) (rcdict : Dict.t pyval) (theme : string)
    (grid ticks spines : bool) (sm : Dict.t string) (clist : list string) :
  get_theme_style list_of_set fs theme = Ok (sm, clist) ->
  Dict.keys sm = slot_keys ->
  exists m,
    set_style_rcdict list_of_set fs rcdict theme grid ticks spines
    = Ok (m, clist).
Proof.
  intros Hst Hkeys. unfold set_style_rcdict. rewrite Hst, bind_Ok.
  destruct sm as [|[k0 a0] sm]; [discriminate Hkeys|].
  do 4 (destruct sm as [|[? ?] sm]; [discriminate Hkeys|]).
  destruct sm; [|discriminate Hkeys].
  injection Hkeys as -> -> -> -> ->.
  eexists. reflexivity.
Qed.

Lemma get_theme_style_keys (list_of_set : list string -> list string)
    (fs : files) (theme : string) (sm : Dict.t string) (clist : list string) :
  get_theme_style list_of_set fs theme = Ok (sm, clist) ->
  Dict.keys sm = slot_keys.
Proof.
  intros H.
  apply get_theme_style_inv in H
    as [(_ & -> & _)|(_ & content & st & _ & Hscan & -> & _)];
    [reflexivity|].
  destruct (scan_lines_total (Str.readlines content)
              (fst get_default_jtstyle, syntaxVars) eq_refl)
    as (st' & Hscan' & Hkeys & _).
  rewrite Hscan in Hscan'. injection Hscan' as <-. exact Hkeys.
Qed.

Lemma style_rcdict_explicit (list_of_set : list string -> list string)
    (fs : files) (theme : option string) (c : string)
    (grid ticks spines : bool) (fscale : num) (m : Dict.t pyval) :
  style_rcdict list_of_set fs theme c grid ticks spines fscale = Ok m ->
  exists rcdict theme' sm clist figureFace axisFace textColor edgeColor
         gridColor,
    set_context c fscale = Ok rcdict /\
    match theme with
    | None => infer_theme fs
    | Some theme => Ok theme
    end = Ok theme' /\
    get_theme_style list_of_set fs theme' = Ok (sm, clist) /\
    Dict.get "figureFace" sm = Some figureFace /\
    Dict.get "axisFace" sm = Some axisFace /\
    Dict.get "textColor" sm = Some textColor /\
    Dict.get "edgeColor" sm = Some edgeColor /\
    Dict.get "gridColor" sm = Some gridColor /\
    m = Dict.update (if ticks then Dict.update rcdict tick_dict else rcdict)
          (theme_style_dict figureFace axisFace textColor
             (if negb spines then gridColor else edgeColor) gridColor grid).
Proof.
  unfold style_rcdict. intros H.
  apply bind_Ok_inv in H as (rcdict & Hrc & H).
  apply bind_Ok_inv in H as (theme' & Hth & H).
  apply bind_Ok_inv in H as ([m' clist] & Hst & H). injection H as <-.
  apply set_style_rcdict_explicit in Hst
    as (sm & ff & af & tc & ec & gc & Hsm & Hff & Haf & Htc & Hec & Hgc & ->).
  exists rcdict, theme', sm, clist, ff, af, tc, ec, gc.
  repeat split; assumption || reflexivity.
Qed.

Lemma tick_keys_in_context (k : string) :
  k ∈ Dict.keys tick_dict -> k ∈ context_keys.
Proof.
  intros H. apply list_elem_of_In in H. apply list_elem_of_In.
  simpl in H. repeat (destruct H as [<-|H]; [simpl; auto 30|]). destruct H.
Qed.

Lemma style_rcdict_keys_eq (list_of_set : list string -> list string)
    (fs : files) (theme : option string) (c : string)
    (grid ticks spines : bool) (fscale : num) (m : Dict.t pyval) :
  style_rcdict list_of_set fs theme c grid ticks spines fscale = Ok m ->
  Dict.keys m = (context_keys ++ style_keys)%list.
Proof.
  intros H.
  apply style_rcdict_explicit in H
    as (rc & th & sm & cl & ff & af & tc & ec & gc & Hrc & _ & _ & _ & _ & _ & _ & _ & ->).
  pose proof (set_context_keys_eq c fscale rc Hrc) as Krc.
  assert (Kt : Dict.keys (if ticks then Dict.update rc tick_dict else rc)
               = context_keys).
  { destruct ticks; [|exact Krc].
    rewrite keys_update_present; [exact Krc|].
    intros k Hk. rewrite Krc. exact (tick_keys_in_context k Hk). }
  rewrite update_fresh.
  - unfold Dict.keys in *. rewrite map_app, Kt. reflexivity.
  - unfold Dict.keys in *. rewrite map_app, Kt. exact all_keys_nodup.
Qed.

(** X12: whatever the theme, the context and the toggles, the mapping
    [style] hands to the host has the same 37 keys: the 23 of
    [set_context], then the 14 colour entries of the theme. *)
Theorem style_rcdict_keys (list_of_set : list string -> list string)
    (fs : files) (theme : option string) (c : string)
    (grid ticks spines : bool) (fscale : num) (m : Dict.t pyval) :
  style_rcdict list_of_set fs theme c grid ticks spines fscale = Ok m ->
  Dict.keys m = (context_keys ++ style_keys)%list /\ length m = 37%nat.
Proof.
  intros H.
  pose proof (style_rcdict_keys_eq list_of_set fs theme c grid ticks spines
                fscale m H) as Hk.
  split; [exact Hk|].
  rewrite <- (length_map fst). fold (Dict.keys (V := pyval)).
  unfold Dict.keys in Hk. rewrite Hk. reflexivity.
Qed.

Lemma style_rcdict_keys_witness :
  exists m,
    style_rcdict remove_dups example_files (Some "example") "paper"
      false true false (Float 2) = Ok m /\
    Dict.keys m = (context_keys ++ style_keys)%list /\ length m = 37%nat.
Proof.
  eexists. split; [vm_compute; reflexivity|].
  apply (style_rcdict_keys remove_dups example_files (Some "example") "paper"
           false true false (Float 2)).
  vm_compute. reflexivity.
Defined.

Lemma theme_style_dict_keys (ff af tc ec gc : string) (grid : bool) :
  Dict.keys (theme_style_dict ff af tc ec gc grid) = style_keys.
Proof. reflexivity. Qed.

Lemma theme_style_dict_frame (ff af tc ec ec' gc : string)
    (grid grid' : bool) (k : string) :
  k <> "axes.grid" -> k <> "axes.edgecolor" ->
  Dict.get k (theme_style_dict ff af tc ec gc grid)
  = Dict.get k (theme_style_dict ff af tc ec' gc grid').
Proof.
  intros Hg He. unfold theme_style_dict. cbn [Dict.get].
  repeat match goal with
    | |- context [String.eqb ?a k] =>
        destruct (String.eqb_spec a k); [congruence || reflexivity|]
    end.
  reflexivity.
Qed.

(** X13: [grid], [ticks] and [spines] decide six entries and no other:
    two calls of [style] that differ in the toggles only agree on every
    key but 'axes.grid', 'axes.edgecolor' and the four tick sizes, and
    'axes.grid' is the [grid] argument. *)
Theorem style_toggles_frame (list_of_set : list string -> list string)
    (fs : files) (theme : option string) (c : string) (fscale : num)
    (grid1 ticks1 spines1 grid2 ticks2 spines2 : bool)
    (m1 m2 : Dict.t pyval) :
  style_rcdict list_of_set fs theme c grid1 ticks1 spines1 fscale = Ok m1 ->
  style_rcdict list_of_set fs theme c grid2 ticks2 spines2 fscale = Ok m2 ->
  (forall k, k ∉ toggle_keys -> Dict.get k m1 = Dict.get k m2) /\
  Dict.get "axes.grid" m1 = Some (VBool grid1).
Proof.
  intros H1 H2.
  apply style_rcdict_explicit in H1
    as (rc & th & sm & cl & ff & af & tc & ec & gc
        & Hrc & Hth & Hsm & Hff & Haf & Htc & Hec & Hgc & ->).
  apply style_rcdict_explicit in H2
    as (rc' & th' & sm' & cl' & ff' & af' & tc' & ec' & gc'
        & Hrc' & Hth' & Hsm' & Hff' & Haf' & Htc' & Hec' & Hgc' & ->).
  rewrite Hrc in Hrc'. injection Hrc' as <-.
  rewrite Hth in Hth'. injection Hth' as <-.
  rewrite Hsm in Hsm'. injection Hsm' as <- <-.
  rewrite Hff in Hff'. injection Hff' as <-.
  rewrite Haf in Haf'. injection Haf' as <-.
  rewrite Htc in Htc'. injection Htc' as <-.
  rewrite Hec in Hec'. injection Hec' as <-.
  rewrite Hgc in Hgc'. injection Hgc' as <-.
  split.
  - intros k Hk. unfold toggle_keys in Hk.
    rewrite !DictFacts.get_update_nodup
      by (rewrite theme_style_dict_keys; exact style_keys_nodup).
    rewrite (theme_style_dict_frame ff af tc _
               (if negb spines2 then gc else ec) gc grid1 grid2 k).
    + destruct (Dict.get k (theme_style_dict ff af tc
                  (if negb spines2 then gc else ec) gc grid2));
        [reflexivity|].
      assert (Ht : k ∉ Dict.keys tick_dict).
      { intros Hin. apply Hk. right. right. exact Hin. }
      destruct ticks1, ticks2;
        rewrite ?(DictFacts.get_update_other k rc tick_dict Ht); reflexivity.
    + intros ->. apply Hk. left.
    + intros ->. apply Hk. right. left.
  - rewrite DictFacts.get_update_nodup
      by (rewrite theme_style_dict_keys; exact style_keys_nodup).
    reflexivity.
Qed.

Lemma style_toggles_frame_witness :
  exists m1 m2,
    style_rcdict remove_dups example_files (Some "example") "talk"
      true false true (Int 1) = Ok m1 /\
    style_rcdict remove_dups example_files (Some "example") "talk"
      false true false (Int 1) = Ok m2 /\
    (forall k, k ∉ toggle_keys -> Dict.get k m1 = Dict.get k m2) /\
    Dict.get "axes.grid" m1 = Some (VBool true).
Proof.
  eexists _, _. split; [vm_compute; reflexivity|].
  split; [vm_compute; reflexivity|].
  apply (style_toggles_frame remove_dups example_files (Some "example")
           "talk" (Int 1) true false true false true false);
    vm_compute; reflexivity.
Defined.

(** X14: with [spines=False] the axes edge takes the grid colour of the
    theme; with [spines=True] it takes the edge colour of the theme. *)
Theorem style_spines (list_of_set : list string -> list string)
    (fs : files) (theme : string) (c : string)
    (grid ticks spines : bool) (fscale : num) (m : Dict.t pyval) :
  style_rcdict list_of_set fs (Some theme) c grid ticks spines fscale
  = Ok m ->
  exists sm clist edgeColor gridColor,
    get_theme_style list_of_set fs theme = Ok (sm, clist) /\
    Dict.get "edgeColor" sm = Some edgeColor /\
    Dict.get "gridColor" sm = Some gridColor /\
    Dict.get "grid.color" m = Some (VStr gridColor) /\
    Dict.get "axes.edgecolor" m
    = Some (VStr (if spines then edgeColor else gridColor)).
Proof.
  intros H.
  apply style_rcdict_explicit in H
    as (rc & th & sm & cl & ff & af & tc & ec & gc
        & _ & [= <-] & Hsm & _ & _ & _ & Hec & Hgc & ->).
  exists sm, cl, ec, gc. repeat (split; [assumption|]).
  rewrite !DictFacts.get_update_nodup
    by (rewrite theme_style_dict_keys; exact style_keys_nodup).
  destruct spines; split; reflexivity.
Qed.

Lemma style_spines_witness :
  exists m,
    style_rcdict remove_dups example_files (Some "example") "notebook"
      true false false (Int 1) = Ok m /\
    exists sm clist edgeColor gridColor,
      get_theme_style remove_dups example_files "example" = Ok (sm, clist) /\
      Dict.get "edgeColor" sm = Some edgeColor /\
      Dict.get "gridColor" sm = Some gridColor /\
      Dict.get "grid.color" m = Some (VStr gridColor) /\
      Dict.get "axes.edgecolor" m
      = Some (VStr (if false then edgeColor else gridColor)).
Proof.
  eexists. split; [vm_compute; reflexivity|].
  apply (style_spines remove_dups example_files "example" "notebook"
           true false false (Int 1)).
  vm_compute. reflexivity.
Defined.

(** X15: a theme file that can be read never makes [style] fail: for a
    known context, a font scale that converts and a theme named in the
    call, the mapping is built whatever the text of the file. *)
Theorem style_rcdict_any_theme_file
    (list_of_set : list string -> list string) (fs : files)
    (theme content c : string) (grid ticks spines : bool) (fscale : num) :
  c ∈ contexts -> convertible fscale ->
  theme <> "default" ->
  styles_dir fs (theme +:+ ".less") = Text content ->
  exists m,
    style_rcdict list_of_set fs (Some theme) c grid ticks spines fscale
    = Ok m.
Proof.
  intros Hc Hf Hth Hfile.
  destruct (set_context_ok c fscale Hc Hf) as [rc Hrc].
  destruct (get_theme_style_returns list_of_set fs theme content Hth Hfile)
    as (sm & clist & Hsm & Hkeys & _).
  destruct (set_style_rcdict_ok list_of_set fs rc theme grid ticks spines
              sm clist Hsm Hkeys) as [m Hm].
  exists m. unfold style_rcdict. rewrite Hrc, !bind_Ok, Hm. reflexivity.
Qed.

Lemma style_rcdict_any_theme_file_witness :
  exists m,
    style_rcdict remove_dups extra_files (Some "overwrite") "paper"
      true true true (Float 1) = Ok m.
Proof.
  apply (style_rcdict_any_theme_file remove_dups extra_files "overwrite"
           (String.concat EmptyString overwrite_lines) "paper").
  - unfold contexts. repeat constructor.
  - exact I.
  - discriminate.
  - reflexivity.
Defined.

(** X16: when the mapping cannot be built (unknown context, font scale
    out of range, marker or theme file that cannot be read), [style]
    raises that exception and writes nothing into matplotlib. *)
Theorem style_failure_writes_nothing
    (list_of_set : list string -> list string)
    (to_rgb : color -> result rgb) (fs : files) (theme : option string)
    (c : string) (grid ticks spines : bool) (fscale : num) (m : mpl)
    (e : exn) :
  style_rcdict list_of_set fs theme c grid ticks spines fscale = Raise e ->
  style list_of_set to_rgb fs theme c grid ticks spines fscale m
  = (Raise e, m).
Proof.
  unfold style_rcdict, style. intros H.
  destruct (set_context c fscale) as [rc|e1]; [|injection H as ->; reflexivity].
  rewrite bind_Ok in H.
  destruct (match theme with
            | Some theme0 => Ok theme0
            | None => infer_theme fs
            end) as [th|e2]; [|injection H as ->; reflexivity].
  rewrite bind_Ok in H. unfold set_style.
  destruct (set_style_rcdict list_of_set fs rc th grid ticks spines)
    as [[m' clist]|e3]; [discriminate|].
  injection H as ->. reflexivity.
Qed.

Lemma style_failure_writes_nothing_witness :
  style remove_dups example_to_rgb example_files (Some "monokai") "notebook"
    true false true (Int 1) example_mpl
  = (Raise OSError, example_mpl).
Proof.
  apply (style_failure_writes_nothing remove_dups example_to_rgb
           example_files (Some "monokai") "notebook" true false true (Int 1)
           example_mpl OSError).
  vm_compute. reflexivity.
Defined.

(** X17: whatever it is called with, and whether it returns or raises,
    [style] leaves every entry of [rcParams] as it was except the 37 keys
    of its mapping and 'axes.prop_cycle', and leaves the defaults as they
    are. *)
Theorem style_rcParams_frame
    (list_of_set : list string -> list string)
    (to_rgb : color -> result rgb) (fs : files) (theme : option string)
    (c : string) (grid ticks spines : bool) (fscale : num) (m : mpl)
    (k : string) :
  k ∉ (context_keys ++ style_keys)%list -> k <> "axes.prop_cycle" ->
  Dict.get k
    (rcParams
       (snd (style list_of_set to_rgb fs theme c grid ticks spines fscale m)))
  = Dict.get k (rcParams m) /\
  rcParamsDefault
    (snd (style list_of_set to_rgb fs theme c grid ticks spines fscale m))
  = rcParamsDefault m.
Proof.
  intros Hk Hcyc.
  destruct (style_rcdict list_of_set fs theme c grid ticks spines fscale)
    as [rc|e] eqn:Hrc.
  - split.
    + destruct (style_hands_rcdict list_of_set to_rgb fs theme c grid ticks
                  spines fscale m rc Hrc) as [clist ->].
      rewrite DictFacts.get_set.
      destruct (String.eqb_spec "axes.prop_cycle" k); [congruence|].
      rewrite DictFacts.get_update_nodup.
      * rewrite (DictFacts.get_None k rc); [reflexivity|].
        rewrite (style_rcdict_keys_eq list_of_set fs theme c grid ticks
                   spines fscale rc Hrc).
        exact Hk.
      * rewrite (style_rcdict_keys_eq list_of_set fs theme c grid ticks
                   spines fscale rc Hrc).
        exact all_keys_nodup.
    + unfold style_rcdict in Hrc. unfold style.
      destruct (set_context c fscale) as [rc0|e1]; [|discriminate].
      rewrite bind_Ok in Hrc.
      destruct (match theme with
                | Some theme0 => Ok theme0
                | None => infer_theme fs
                end) as [th|e2]; [|discriminate].
      rewrite bind_Ok in Hrc. unfold set_style.
      destruct (set_style_rcdict list_of_set fs rc0 th grid ticks spines)
        as [[rc' clist]|e3]; [|discriminate].
      rewrite set_codes_rcParamsDefault. reflexivity.
  - assert (Hst : style list_of_set to_rgb fs theme c grid ticks spines
                    fscale m = (Raise e, m)).
    { unfold style_rcdict in Hrc. unfold style.
      destruct (set_context c fscale) as [rc0|e1];
        [|injection Hrc as ->; reflexivity].
      rewrite bind_Ok in Hrc.
      destruct (match theme with
                | Some theme0 => Ok theme0
                | None => infer_theme fs
                end) as [th|e2]; [|injection Hrc as ->; reflexivity].
      rewrite bind_Ok in Hrc. unfold set_style.
      destruct (set_style_rcdict list_of_set fs rc0 th grid ticks spines)
        as [[rc' clist]|e3]; [discriminate|].
      injection Hrc as ->. reflexivity. }
    rewrite Hst. split; reflexivity.
Qed.

Lemma style_rcParams_frame_witness :
  Dict.get "font.family"
    (rcParams
       (snd (style remove_dups lenient_to_rgb example_files (Some "example")
               "notebook" true false true (Int 1) example_mpl)))
  = Dict.get "font.family" (rcParams example_mpl) /\
  rcParamsDefault
    (snd (style remove_dups lenient_to_rgb example_files (Some "example")
            "notebook" true false true (Int 1) example_mpl))
  = rcParamsDefault example_mpl.
Proof.
  apply (style_rcParams_frame remove_dups lenient_to_rgb example_files
           (Some "example") "notebook" true false true (Int 1) example_mpl
           "font.family").
  - intros H. apply list_elem_of_In in H. vm_compute in H.
    repeat (destruct H as [H|H]; [discriminate H|]). exact H.
  - discriminate.
Defined.

(* ================================================================= *)
(** ** The colour codes [set_style] rebinds *)

Lemma set_codes_other (to_rgb : color -> result rgb)
    (pairs : list (string * color)) (m : mpl) (code : string) :
  code ∉ pairs.*1 ->
  Dict.get code (colors (snd (set_codes to_rgb pairs m)))
  = Dict.get code (colors m).
Proof.
  revert m. induction pairs as [|[k c] pairs IH]; intros m Hn.
  - reflexivity.
  - rewrite fmap_cons in Hn. apply not_elem_of_cons in Hn as [Hk Hn].
    cbn [fst] in Hk. cbn [set_codes].
    destruct (to_rgb c) as [v|e]; [|reflexivity].
    rewrite (IH (with_code k v m) Hn).
    cbn [colors with_code]. rewrite DictFacts.get_set.
    destruct (String.eqb_spec k code); [congruence | reflexivity].
Qed.

Lemma set_codes_lookup (to_rgb : color -> result rgb)
    (pairs : list (string * color)) (m m' : mpl) :
  NoDup pairs.*1 ->
  set_codes to_rgb pairs m = (Ok tt, m') ->
  forall code c, (code, c) ∈ pairs ->
    exists v, to_rgb c = Ok v /\ Dict.get code (colors m') = Some v.
Proof.
  revert m. induction pairs as [|[k c0] pairs IH]; intros m Hnd H code c Hin.
  - inversion Hin.
  - rewrite fmap_cons in Hnd. apply NoDup_cons in Hnd as [Hk Hnd].
    cbn [fst] in Hk. cbn [set_codes] in H.
    destruct (to_rgb c0) as [v|e] eqn:Hv; [|discriminate].
    apply elem_of_cons in Hin as [Heq|Hin].
    + injection Heq as -> ->. exists v. split; [exact Hv|].
      pose proof (set_codes_other to_rgb pairs (with_code k v m) k Hk) as Hc.
      rewrite H in Hc. cbn [snd colors with_code] in Hc.
      rewrite Hc, DictFacts.get_set, String.eqb_refl. reflexivity.
    + exact (IH _ Hnd H code c Hin).
Qed.

(** X18: when [style] returns, the seven colour codes [b g r m y c k] are
    bound in [colors] to the first seven accent colours of
    [get_color_list], converted by the host, whatever the theme, and every
    other code of [colors] is as it was: the colours of a theme file never
    reach the colour codes. *)
Theorem style_short_codes (list_of_set : list string -> list string)
    (to_rgb : color -> result rgb) (fs : files) (theme : option string)
    (c : string) (grid ticks spines : bool) (fscale : num) (m m' : mpl) :
  style list_of_set to_rgb fs theme c grid ticks spines fscale m
  = (Ok tt, m') ->
  (forall i code hex,
     short_codes !! i = Some code -> get_color_list !! i = Some hex ->
     exists v, to_rgb (ColorStr hex) = Ok v /\
       Dict.get code (colors m') = Some v) /\
  (forall code, code ∉ short_codes ->
     Dict.get code (colors m') = Dict.get code (colors m)).
Proof.
  unfold style.
  destruct (set_context c fscale) as [rc|e]; [|discriminate].
  destruct (match theme with
            | Some theme0 => Ok theme0
            | None => infer_theme fs
            end) as [th|e]; [|discriminate].
  unfold set_style.
  destruct (set_style_rcdict list_of_set fs rc th grid ticks spines)
    as [[rc' clist]|e] eqn:Hst; [|discriminate].
  apply set_style_rcdict_explicit in Hst as (sm & _ & _ & _ & _ & _ & Hgt & _).
  assert (Hcl : exists tail, clist = (get_color_list ++ tail)%list).
  { apply get_theme_style_inv in Hgt
      as [(_ & _ & ->)|(_ & content & st & _ & _ & _ & ->)].
    - exists []. rewrite app_nil_r. reflexivity.
    - eexists. reflexivity. }
  destruct Hcl as [tail ->].
  change (zip (chars "bgrmyck")
            (ColorStr <$> take 7 (get_color_list ++ tail)%list))
    with (zip short_codes (ColorStr <$> take 7 get_color_list)).
  set (m0 := with_rcParams _ _). intros H.
  assert (Hfst : (zip short_codes (ColorStr <$> take 7 get_color_list)).*1
                 = short_codes) by reflexivity.
  split.
  - intros i code hex Hi Hh.
    apply (set_codes_lookup to_rgb
             (zip short_codes (ColorStr <$> take 7 get_color_list)) m0 m');
      [| exact H |].
    + rewrite Hfst. apply (bool_decide_unpack _). vm_compute. reflexivity.
    + do 7 (destruct i as [|i];
            [ vm_compute in Hi, Hh; injection Hi as <-; injection Hh as <-;
              apply list_elem_of_In; simpl; auto 10 |]).
      cbv in Hi. discriminate Hi.
  - intros code Hn. rewrite <- Hfst in Hn.
    pose proof (set_codes_other to_rgb
                  (zip short_codes (ColorStr <$> take 7 get_color_list))
                  m0 code Hn) as Hc.
    rewrite H in Hc. exact Hc.
Qed.

Lemma style_short_codes_witness :
  (forall i code hex,
     short_codes !! i = Some code -> get_color_list !! i = Some hex ->
     exists v, lenient_to_rgb (ColorStr hex) = Ok v /\
       Dict.get code (colors example_styled) = Some v) /\
  (forall code, code ∉ short_codes ->
     Dict.get code (colors example_styled)
     = Dict.get code (colors example_mpl)).
Proof.
  apply (style_short_codes remove_dups lenient_to_rgb example_files
           (Some "example") "notebook" true false true (Int 1)
           example_mpl example_styled).
  vm_compute. reflexivity.
Defined.

(* ================================================================= *)
(** ** The theme the marker file names *)

Lemma terminated_not_default (name : string) :
  name +:+ Str.eol <> "default".
Proof.
  intros H.
  assert (Hc : has_char Str.nl (name +:+ Str.eol) = true).
  { rewrite StrFacts.has_char_append. apply orb_true_r. }
  rewrite H in Hc. vm_compute in Hc. discriminate Hc.
Qed.

(** X19: the name [infer_theme] reads from the marker file is its first
    line as [readlines] gives it: when the line is terminated, the name
    ends in the line terminator. *)
Theorem infer_theme_keeps_terminator (fs : files) (name rest : string) :
  theme_name_file fs = Text (name +:+ Str.eol +:+ rest) ->
  has_char Str.nl name = false ->
  infer_theme fs = Ok (name +:+ Str.eol).
Proof.
  intros H Hn. unfold infer_theme. rewrite H.
  cbn [path_exists open]. rewrite bind_Ok.
  change (name +:+ Str.eol +:+ rest) with (name +:+ String Str.nl rest).
  rewrite (StrFacts.readlines_line name rest Hn). reflexivity.
Qed.

Lemma infer_theme_keeps_terminator_witness :
  infer_theme extra_files = Ok ("default" +:+ Str.eol).
Proof.
  apply (infer_theme_keeps_terminator extra_files "default" EmptyString).
  - reflexivity.
  - reflexivity.
Defined.

(** X20: with a marker file whose first line is terminated, [style()]
    without a theme opens the theme file named with the terminator, also
    when the line says [default]: when that file cannot be opened, [style]
    raises what [open] raises and writes nothing. *)
Theorem style_terminated_marker (list_of_set : list string -> list string)
    (to_rgb : color -> result rgb) (fs : files) (name rest c : string)
    (grid ticks spines : bool) (fscale : num) (m : mpl) (e : exn) :
  theme_name_file fs = Text (name +:+ Str.eol +:+ rest) ->
  has_char Str.nl name = false ->
  open (styles_dir fs ((name +:+ Str.eol) +:+ ".less")) = Raise e ->
  c ∈ contexts -> convertible fscale ->
  style list_of_set to_rgb fs None c grid ticks spines fscale m
  = (Raise e, m).
Proof.
  intros H Hn Hfile Hc Hf.
  destruct (set_context_ok c fscale Hc Hf) as [rc Hrc].
  unfold style. rewrite Hrc.
  assert (Hi : infer_theme fs = Ok (name +:+ Str.eol)).
  { unfold infer_theme. rewrite H.
    cbn [path_exists open]. rewrite bind_Ok.
    change (name +:+ Str.eol +:+ rest) with (name +:+ String Str.nl rest).
    rewrite (StrFacts.readlines_line name rest Hn). reflexivity. }
  rewrite Hi. unfold set_style, set_style_rcdict, get_theme_style.
  cbn [get_default_jtstyle].
  destruct (String.eqb_spec (name +:+ Str.eol) "default") as [He|_].
  - destruct (terminated_not_default name He).
  - rewrite Hfile. reflexivity.
Qed.

Lemma style_terminated_marker_witness :
  style remove_dups example_to_rgb extra_files None "notebook"
    true false true (Int 1) example_mpl
  = (Raise OSError, example_mpl).
Proof.
  apply (style_terminated_marker remove_dups example_to_rgb extra_files
           "default" EmptyString).
  - reflexivity.
  - reflexivity.
  - reflexivity.
  - apply list_elem_of_In. simpl. auto.
  - eexists. vm_compute. reflexivity.
Defined.

(** X21: with no marker file, [style()] without a theme does what
    [style(theme='default')] does, and the built-in theme reads neither
    the styles directory nor the order of a set. *)
Theorem style_absent_marker
    (list_of_set list_of_set' : list string -> list string)
    (to_rgb : color -> result rgb) (fs fs' : files) (c : string)
    (grid ticks spines : bool) (fscale : num) (m : mpl) :
  theme_name_file fs = Absent ->
  style list_of_set to_rgb fs None c grid ticks spines fscale m
  = style list_of_set' to_rgb fs' (Some "default") c grid ticks spines
      fscale m.
Proof.
  intros H. unfold style. rewrite (infer_theme_absent fs H).
  destruct (set_context c fscale) as [rc|e]; reflexivity.
Qed.

Lemma style_absent_marker_witness :
  style remove_dups lenient_to_rgb example_files None "talk"
    false true true (Float 1.5) example_mpl
  = style (fun l => l) lenient_to_rgb extra_files (Some "default") "talk"
      false true true (Float 1.5) example_mpl.
Proof.
  apply (style_absent_marker remove_dups (fun l => l) lenient_to_rgb
           example_files extra_files).
  reflexivity.
Defined.

(* ================================================================= *)
(** ** What [get_hex_code] takes from a line *)

Lemma has_char_drop (c : ascii) (n : nat) (s : string) :
  has_char c s = false -> has_char c (Str.drop n s) = false.
Proof.
  revert n. induction s as [|x s IH]; intros [|n] H; simpl; auto.
  simpl in H. apply orb_false_elim in H as [_ H]. exact (IH n H).
Qed.

Lemma length_drop (n : nat) (s : string) :
  String.length (Str.drop n s) = (String.length s - n)%nat.
Proof.
  revert n. induction s as [|x s IH]; intros [|n]; simpl; auto.
Qed.

Lemma split_last_no_sep (sep : ascii) (s : string) :
  has_char sep (default EmptyString (last (Str.split sep s))) = false.
Proof.
  induction s as [|c s IH]; simpl; [reflexivity|].
  destruct (Ascii.eqb c sep) eqn:Hc.
  - pose proof (StrFacts.split_nonempty sep s) as Hne.
    destruct (Str.split sep s) as [|w ws]; [contradiction|]. exact IH.
  - pose proof (StrFacts.split_nonempty sep s) as Hne.
    destruct (Str.split sep s) as [|w ws]; [contradiction|].
    destruct ws as [|w' ws].
    + simpl in *. rewrite Ascii.eqb_sym, Hc. exact IH.
    + exact IH.
Qed.

Lemma split_head_no_sep (sep c : ascii) (s : string) :
  has_char sep (default EmptyString (head (Str.split sep s))) = false /\
  (has_char c s = false ->
   has_char c (default EmptyString (head (Str.split sep s))) = false).
Proof.
  induction s as [|x s [IH1 IH2]]; simpl; [auto|].
  destruct (Ascii.eqb x sep) eqn:Hx; [simpl; auto|].
  pose proof (StrFacts.split_nonempty sep s) as Hne.
  destruct (Str.split sep s) as [|w ws]; [contradiction|].
  simpl in *. split.
  - rewrite Ascii.eqb_sym, Hx. exact IH1.
  - intros H. apply orb_false_elim in H as [H1 H2].
    rewrite H1. exact (IH2 H2).
Qed.

(** X22: on a line that holds a colon, and a semicolon after its last
    colon, [get_hex_code] returns the last seven characters of the text
    between the two, all of it when it is shorter: no check that these
    are a hex colour. *)
Theorem get_hex_code_between (a u w : string) :
  has_char ":" u = false -> has_char ":" w = false ->
  has_char ";" u = false ->
  get_hex_code (a +:+ ":" +:+ u +:+ ";" +:+ w) = Str.suffix 7 u.
Proof.
  intros Hu Hw Hsemi. unfold get_hex_code.
  assert (Hcolon : has_char ":" (u +:+ ";" +:+ w) = false).
  { rewrite !StrFacts.has_char_append, Hu, Hw. reflexivity. }
  change (a +:+ ":" +:+ u +:+ ";" +:+ w)
    with (a +:+ String ":" (u +:+ ";" +:+ w)).
  rewrite StrFacts.split_append, (StrFacts.split_no_sep ":" _ Hcolon).
  rewrite last_snoc. simpl default.
  change (u +:+ ";" +:+ w) with (u +:+ String ";" w).
  rewrite StrFacts.split_append, (StrFacts.split_no_sep ";" _ Hsemi).
  reflexivity.
Qed.

Lemma get_hex_code_between_witness :
  get_hex_code ("  color" +:+ ":" +:+ " red" +:+ ";" +:+ Str.eol)
  = Str.suffix 7 " red".
Proof.
  apply (get_hex_code_between "  color" " red" Str.eol); reflexivity.
Defined.

(** X23: whatever the line, the text [get_hex_code] returns has at most
    seven characters and holds neither a colon nor a semicolon. *)
Theorem get_hex_code_bounds (line : string) :
  (String.length (get_hex_code line) <= 7)%nat /\
  has_char ":" (get_hex_code line) = false /\
  has_char ";" (get_hex_code line) = false.
Proof.
  unfold get_hex_code, Str.suffix.
  set (tl := default EmptyString (last (Str.split ":" line))).
  set (hd := default EmptyString (head (Str.split ";" tl))).
  split; [rewrite length_drop; lia|]. split; apply has_char_drop.
  - apply (proj2 (split_head_no_sep ";" ":" tl)).
    exact (split_last_no_sep ":" line).
  - exact (proj1 (split_head_no_sep ";" ";" tl)).
Qed.
